(** * Client-side orchestration scripts of the Intuition protocol

    A shallow embedding of the Python example scripts
    ([create-atom.py], [create-triple.py], [deposit-vault.py],
    [redeem-shares.py], [claim-rewards.py], [event-indexer.py]).

    Every script is a straight-line conversation with two external
    collaborators: the chain endpoint reached through [web3] and the signer
    holding the private key.  A script is embedded as a tree of requests
    ([Prog]); an environment ([Handler]) answers each request, possibly by
    raising, and may let its answer depend on everything that happened before.
    Running a script against an environment yields the chronological trace of
    what the script did and how it ended.

    Conventions.
    - Python [int] is [Z]; [//] by a positive constant is [Z.div] (both floor).
    - Python [bytes] is [string] (a sequence of 8-bit characters), and a
      [str] is held as its UTF-8 encoding.  Python slices and pads a [str] by
      character: [str_drop] and [zfill] do it by byte, which is the same on
      ASCII strings ([is_ascii]), the ones addresses are written in.
    - The module-level constants of a script (its "configuration") are the
      fields of a [Config] record; [defaults] holds the values of the source,
      for a private key taken from the process environment.
    - An [Exn] is an instance of [Exception].  [SystemExit] is not modelled.
      [KeyboardInterrupt], which the [__main__] guards do not catch, is
      modelled for the indexer only, whose monitor catches it (see below).
    - A [print] of a constant string is a [Printed] event.  In the five
      scripts that send transactions a [print] of an f-string that formats
      amounts, hashes or block numbers is left out, as the formatting belongs
      to the libraries; the [bytes.decode] inside such an f-string, which
      raises on bytes that are not UTF-8, is kept.  Amounts are formatted
      with [Web3.from_wei], which raises outside the range of a [uint256]:
      every formatted amount is taken to be in that range, as the ABI-decoded
      answers are, so formatting an amount never ends a run; a theorem that
      says how a run goes on past the formatting of an amount the script has
      computed itself assumes that range.  The [__main__] guard prints
      [str(e)].  In the indexer every line is printed, an [int] in decimal
      ([str_int]).
    - A [Tx] holds the contract call and the parameters the caller hands to
      [build_transaction], and stands for the transaction the library builds
      from them, signs and sends.  What the library fills in besides (the
      chain id, the encoded data, a ['value'] of 0 where the caller gives
      none) is not part of it: [tx_value] is the caller's ['value'].
    - The two query functions of the indexer are scripts like the others.
      Its [main] and [monitor_real_time_events] also read the console, read
      the head of the chain, poll a filter and sleep: they are embedded as
      sessions ([Session]), whose environment ([World]) may answer any request
      with a [KeyboardInterrupt] (an interrupt is taken to arrive while the
      program waits for an answer), and whose [while True] loop is unrolled a
      given number of rounds, a run that has not ended by then being
      [Running].  Constructing a provider makes no request and is taken not
      to raise; [.hex()] of a topic or of a transaction hash is the topic or
      the hash as the log holds it. *)

From Stdlib Require Import ZArith String Ascii List Lia Bool.
From stdpp Require Import base tactics option list strings pretty gmap.
Import ListNotations.
Local Open Scope string_scope.
Local Open Scope list_scope.
Local Open Scope Z_scope.

(** ** Values exchanged with the chain *)

Definition address := string.
Definition bytes := string.

(** A Python exception: its class and [str(e)]. *)
Record Exn := mkExn { exn_class : string; exn_str : string }.

(** [Exception(msg)], the only exception the scripts raise themselves. *)
Definition Exception (msg : string) : Exn :=
  {| exn_class := "Exception"; exn_str := msg |}.

(** The tuple returned by [TrustBonding.getUserInfo], in ABI order:
    index 1 is [eligibleRewards], index 5 is [bondedBalance]. *)
Record UserInfo := mkUserInfo {
  personalUtilization : Z;
  eligibleRewards : Z;
  maxRewards : Z;
  lockedAmount : Z;
  lockEnd : Z;
  bondedBalance : Z
}.

(** The contract functions named in the ABI literals of the scripts. *)
Inductive ContractFn :=
| createAtoms (atomDatas : list bytes) (assets : list Z)
| calculateAtomId (data : bytes)
| isTermCreated (id : bytes)
| getAtomCost
| createTriples (subjectIds predicateIds objectIds : list bytes) (assets : list Z)
| calculateTripleId (subjectId predicateId objectId : bytes)
| getTripleCost
| deposit (receiver : address) (termId : bytes) (curveId : Z) (minShares : Z)
| previewDeposit (termId : bytes) (curveId : Z) (assets : Z)
| getShares (account : address) (termId : bytes) (curveId : Z)
| redeem (receiver : address) (termId : bytes) (curveId : Z) (shares : Z) (minAssets : Z)
| previewRedeem (termId : bytes) (curveId : Z) (shares : Z)
| approve (spender : address) (amount : Z)
| allowance (owner spender : address)
| balanceOf (account : address)
| currentEpoch
| previousEpoch
| getUserCurrentClaimableRewards (account : address)
| getUserApy (account : address)
| getUserInfo (account : address)
| claimRewards (recipient : address).

(** What [f.call()] returns, by the [outputs] of the ABI entry. *)
Definition ret (f : ContractFn) : Type :=
  match f with
  | createAtoms _ _ | createTriples _ _ _ _ => list bytes
  | calculateAtomId _ | calculateTripleId _ _ _ => bytes
  | isTermCreated _ | approve _ _ => bool
  | previewDeposit _ _ _ | previewRedeem _ _ _ | getUserApy _ => Z * Z
  | getUserInfo _ => UserInfo
  | claimRewards _ => unit
  | _ => Z
  end.

(** The dict produced by [build_transaction]: the target contract and the
    encoded call, then the caller's parameters.  ['value'] is absent from
    some of the dicts. *)
Record Tx := mkTx {
  tx_to : address;
  tx_call : ContractFn;
  tx_from : address;
  tx_nonce : Z;
  tx_gas : Z;
  tx_gasPrice : Z;
  tx_value : option Z
}.

Record Receipt := mkReceipt {
  blockNumber : Z;
  gasUsed : Z;
  status : Z
}.

(** [event['args']] of a decoded [AtomCreated] log. *)
Record AtomCreatedArgs := mkAtomCreated {
  creator : address;
  termId_of : bytes;
  atomData : bytes;
  atomWallet : address
}.

(** The filter dict handed to [w3.eth.get_logs]. *)
Record Filter := mkFilter {
  fromBlock : Z;
  toBlock : Z;
  filter_address : address;
  topics : list string
}.

Record LogEntry := mkLog {
  log_address : address;
  log_topics : list string;
  log_blockNumber : Z;
  log_transactionHash : string;
  log_logIndex : Z
}.

(** ** Requests a script makes to its environment *)

Inductive Req :=
| IsConnected
| GetBalance (a : address)
| Call (contract : address) (f : ContractFn)
| GetTransactionCount (a : address)
| GasPrice
| BuildTransaction (tx : Tx)
| SignTransaction (tx : Tx)
| SendRawTransaction (rawTransaction : Tx)
| WaitForTransactionReceipt (tx_hash : string)
| ProcessReceipt (r : Receipt)
| GetLogs (f : Filter).

Definition resp (c : Req) : Type :=
  match c with
  | IsConnected => bool
  | GetBalance _ | GetTransactionCount _ | GasPrice => Z
  | Call _ f => ret f
  | BuildTransaction _ | SignTransaction _ => unit
  | SendRawTransaction _ => string
  | WaitForTransactionReceipt _ => Receipt
  | ProcessReceipt _ => list AtomCreatedArgs
  | GetLogs _ => list LogEntry
  end.

(** Answers as they are written in a trace. *)
Inductive Value :=
| VNone
| VBool (b : bool)
| VInt (z : Z)
| VStr (s : string)
| VStrs (l : list string)
| VPair (a b : Z)
| VUserInfo (u : UserInfo)
| VReceipt (r : Receipt)
| VEvents (l : list AtomCreatedArgs)
| VLogs (l : list LogEntry)
| VRaised (e : Exn).

Definition ret_value (f : ContractFn) : ret f -> Value :=
  match f with
  | createAtoms _ _ | createTriples _ _ _ _ => VStrs
  | calculateAtomId _ | calculateTripleId _ _ _ => VStr
  | isTermCreated _ | approve _ _ => VBool
  | previewDeposit _ _ _ | previewRedeem _ _ _ | getUserApy _ => fun p => VPair (fst p) (snd p)
  | getUserInfo _ => VUserInfo
  | claimRewards _ => fun _ => VNone
  | _ => VInt
  end.

Definition to_value (c : Req) : resp c -> Value :=
  match c with
  | IsConnected => VBool
  | GetBalance _ | GetTransactionCount _ | GasPrice => VInt
  | Call _ f => ret_value f
  | BuildTransaction _ | SignTransaction _ => fun _ => VNone
  | SendRawTransaction _ => VStr
  | WaitForTransactionReceipt _ => VReceipt
  | ProcessReceipt _ => VEvents
  | GetLogs _ => VLogs
  end.

(** One entry of a trace: a request with its answer, or a printed line. *)
Inductive Event :=
| Called (c : Req) (v : Value)
| Printed (line : string).

Definition Trace := list Event.

(** ** Scripts *)

Inductive Prog (A : Type) : Type :=
| Ret (a : A)
| Raise (e : Exn)
| Emit (line : string) (k : Prog A)
| Vis (c : Req) (k : resp c -> Prog A).

Arguments Ret {A} a.
Arguments Raise {A} e.
Arguments Emit {A} line k.
Arguments Vis {A} c k.

Fixpoint bind {A B : Type} (p : Prog A) (f : A -> Prog B) : Prog B :=
  match p with
  | Ret a => f a
  | Raise e => Raise e
  | Emit s k => Emit s (bind k f)
  | Vis c k => Vis c (fun r => bind (k r) f)
  end.

Declare Scope prog_scope.
Delimit Scope prog_scope with prog.
Bind Scope prog_scope with Prog.
Notation "x <- p ;; q" := (bind p (fun x => q))
  (at level 100, p at next level, right associativity) : prog_scope.
Notation "p ;; q" := (bind p (fun _ => q))
  (at level 100, right associativity) : prog_scope.
Local Open Scope prog_scope.

Definition request (c : Req) : Prog (resp c) := Vis c Ret.
Definition print (line : string) : Prog unit := Emit line (Ret tt).

(** A library call that either raises or returns. *)
Definition lift {A : Type} (r : Exn + A) : Prog A :=
  match r with
  | inl e => Raise e
  | inr a => Ret a
  end.

(** [for x in xs: body(x)] *)
Fixpoint for_each {X : Type} (xs : list X) (body : X -> Prog unit) : Prog unit :=
  match xs with
  | [] => Ret tt
  | x :: rest => body x ;; for_each rest body
  end.

(** ** Environments and runs *)

(** The environment sees the trace so far and the request, and raises or
    answers. *)
Definition Handler := Trace -> forall c : Req, Exn + resp c.

(** [run p h past] continues the trace [past] with what [p] does against [h]. *)
Fixpoint run {A : Type} (p : Prog A) (h : Handler) (past : Trace) : Trace * (Exn + A) :=
  match p with
  | Ret a => (past, inr a)
  | Raise e => (past, inl e)
  | Emit s k => run k h (past ++ [Printed s])
  | Vis c k =>
      match h past c with
      | inl e => (past ++ [Called c (VRaised e)], inl e)
      | inr r => run (k r) h (past ++ [Called c (to_value c r)])
      end
  end.

(** The weakest precondition of a script for a postcondition on the final
    trace and outcome, whatever the environment answers. *)
Fixpoint wp {A : Type} (p : Prog A) (Q : Trace -> Exn + A -> Prop) (past : Trace) : Prop :=
  match p with
  | Ret a => Q past (inr a)
  | Raise e => Q past (inl e)
  | Emit s k => wp k Q (past ++ [Printed s])
  | Vis c k =>
      (forall e, Q (past ++ [Called c (VRaised e)]) (inl e)) /\
      (forall r, wp (k r) Q (past ++ [Called c (to_value c r)]))
  end.

(** ** Library functions the scripts use

    Pure functions of [web3], [eth_account] and Python itself whose results
    the scripts only pass on. *)

Class Web3Lib := {
  (** [Web3.to_checksum_address(a)] *)
  to_checksum_address : string -> address;
  (** [Account.from_key(k).address]; raises on a malformed key. *)
  from_key : string -> Exn + address;
  (** [Web3.keccak(text=s).hex()] *)
  keccak_text_hex : string -> string;
  (** [str(Web3.from_wei(x, 'ether'))] *)
  from_wei_ether : Z -> string;
  (** [b.decode('utf-8')]; raises [UnicodeDecodeError]. *)
  decode_utf8 : bytes -> Exn + string
}.

(** [Web3.to_wei(n, 'ether')] for an integer [n]. *)
Definition to_wei_ether (n : Z) : Z := n * 10 ^ 18.

Definition hex_digit (n : N) : ascii :=
  match String.get (N.to_nat n) "0123456789abcdef" with
  | Some c => c
  | None => "0"%char
  end.

(** [b.hex()] of Python [bytes]: two lowercase digits per byte, no prefix. *)
Fixpoint hex (b : bytes) : string :=
  match b with
  | EmptyString => ""
  | String c rest =>
      String (hex_digit (N.div (N_of_ascii c) 16))
        (String (hex_digit (N.modulo (N_of_ascii c) 16)) (hex rest))
  end.

Definition hex_value (c : ascii) : option N :=
  let n := N_of_ascii c in
  if (48 <=? n)%N && (n <=? 57)%N then Some (n - 48)%N
  else if (97 <=? n)%N && (n <=? 102)%N then Some (n - 87)%N
  else if (65 <=? n)%N && (n <=? 70)%N then Some (n - 55)%N
  else None.

(** [bytes.fromhex(s)] for a string of hex digit pairs; [None] where Python
    raises [ValueError]. *)
Fixpoint fromhex (s : string) : option bytes :=
  match s with
  | EmptyString => Some EmptyString
  | String hi (String lo rest) =>
      match hex_value hi, hex_value lo, fromhex rest with
      | Some a, Some b, Some r => Some (String (ascii_of_N (a * 16 + b)) r)
      | _, _, _ => None
      end
  | String _ EmptyString => None
  end.

(** [s[n:]] *)
Fixpoint str_drop (n : nat) (s : string) : string :=
  match n, s with
  | O, _ => s
  | S n', String _ rest => str_drop n' rest
  | S _, EmptyString => EmptyString
  end.

Fixpoint zeros (n : nat) : string :=
  match n with
  | O => EmptyString
  | S n' => String "0"%char (zeros n')
  end.

(** [s.zfill(width)]: pad with ['0'] on the left up to [width]; a leading
    sign stays in front of the padding. *)
Definition zfill (width : nat) (s : string) : string :=
  let fill := zeros (width - String.length s) in
  match s with
  | String c rest =>
      if (Ascii.eqb c "+" || Ascii.eqb c "-")%bool
      then String c (fill ++ rest)%string
      else (fill ++ s)%string
  | EmptyString => fill
  end.

(** The newline character, for the literals that end in [\n]. *)
Definition nl : string := String (ascii_of_nat 10) EmptyString.

(** [s * n] *)
Fixpoint str_times (s : string) (n : nat) : string :=
  match n with
  | O => EmptyString
  | S n' => (s ++ str_times s n')%string
  end.

Arguments str_times : simpl never.

(** [str(n)] of an [int], as an f-string formats it: decimal digits, with a
    minus sign in front of a negative number. *)
Definition str_int (n : Z) : string := pretty n.

Arguments str_int : simpl never.

(** Whether every character of a [str] is an ASCII character.  A [str] is
    held as its UTF-8 encoding, so on such a string slicing and padding by
    character are slicing and padding by byte. *)
Definition is_ascii (s : string) : bool :=
  forallb (fun c => (nat_of_ascii c <? 128)%nat) (list_ascii_of_string s).

(** ** The calls of [web3.py] as requests *)

Definition is_connected : Prog bool := request IsConnected.
Definition get_balance (a : address) : Prog Z := request (GetBalance a).
Definition call (contract : address) (f : ContractFn) : Prog (ret f) :=
  request (Call contract f).
Definition get_transaction_count (a : address) : Prog Z :=
  request (GetTransactionCount a).
Definition gas_price : Prog Z := request GasPrice.

(** [contract.functions.f(args).build_transaction(params)] *)
Definition build_transaction (tx : Tx) : Prog Tx :=
  request (BuildTransaction tx) ;; Ret tx.

(** [account.sign_transaction(tx)]; the result stands for
    [signed.rawTransaction]. *)
Definition sign_transaction (tx : Tx) : Prog Tx :=
  request (SignTransaction tx) ;; Ret tx.

Definition send_raw_transaction (rawTransaction : Tx) : Prog string :=
  request (SendRawTransaction rawTransaction).
Definition wait_for_transaction_receipt (tx_hash : string) : Prog Receipt :=
  request (WaitForTransactionReceipt tx_hash).
Definition process_receipt (r : Receipt) : Prog (list AtomCreatedArgs) :=
  request (ProcessReceipt r).
Definition get_logs (f : Filter) : Prog (list LogEntry) := request (GetLogs f).

(** ** Reading a trace *)

(** The requests made with their answers, in order, without the output. *)
Definition calls (tr : Trace) : list (Req * Value) :=
  omap (fun e => match e with
                 | Called c v => Some (c, v)
                 | Printed _ => None
                 end) tr.

(** Every transaction handed to [build_transaction], [sign_transaction] or
    [send_raw_transaction], in order. *)
Definition transactions (tr : Trace) : list Tx :=
  omap (fun e => match e with
                 | Called (BuildTransaction tx) _
                 | Called (SignTransaction tx) _
                 | Called (SendRawTransaction tx) _ => Some tx
                 | _ => None
                 end) tr.

(** The transactions handed to [send_raw_transaction], in order. *)
Definition submitted (tr : Trace) : list Tx :=
  omap (fun e => match e with
                 | Called (SendRawTransaction tx) _ => Some tx
                 | _ => None
                 end) tr.

(** The hashes handed to [wait_for_transaction_receipt], in order. *)
Definition awaited (tr : Trace) : list string :=
  omap (fun e => match e with
                 | Called (WaitForTransactionReceipt tx_hash) _ => Some tx_hash
                 | _ => None
                 end) tr.

(** The lines printed, in order. *)
Definition stdout (tr : Trace) : list string :=
  omap (fun e => match e with
                 | Printed s => Some s
                 | _ => None
                 end) tr.

Definition trace_of {A : Type} (p : Prog A) (h : Handler) : Trace :=
  fst (run p h []).
Definition outcome_of {A : Type} (p : Prog A) (h : Handler) : Exn + A :=
  snd (run p h []).

(** ** The [__main__] guard

    [try: main() except Exception as e: print(...); exit(1)].  Falling off
    the end of the script is exit status 0. *)
Definition run_script (main : Prog unit) (report : Exn -> list string)
    (h : Handler) : Trace * Z :=
  match run main h [] with
  | (tr, inl error) => (tr ++ map Printed (report error), 1)
  | (tr, inr _) => (tr, 0)
  end.

(** ** redeem-shares.py *)

Module RedeemShares.

Record Config := mkConfig {
  MULTIVAULT_ADDRESS : string;
  PRIVATE_KEY : string;
  TERM_ID : bytes;
  CURVE_ID : Z;
  SHARES_TO_REDEEM : Z;
  SLIPPAGE_BPS : Z
}.

Definition defaults (private_key : string) : Config := {|
  MULTIVAULT_ADDRESS := "0x6E35cF57A41fA15eA0EaE9C33e751b01A784Fe7e";
  PRIVATE_KEY := private_key;
  TERM_ID := default "" (fromhex "0000000000000000000000000000000000000000000000000000000000000001");
  CURVE_ID := 1;
  SHARES_TO_REDEEM := to_wei_ether 5;
  SLIPPAGE_BPS := 100
|}.

Section Script.
Context `{Web3Lib} (cfg : Config).

Definition main : Prog unit :=
  print ("Redeeming Shares" ++ nl)%string ;;
  account <- lift (from_key (PRIVATE_KEY cfg)) ;;
  let multivault := to_checksum_address (MULTIVAULT_ADDRESS cfg) in
  (* Get current shares *)
  current_shares <- call multivault (getShares account (TERM_ID cfg) (CURVE_ID cfg)) ;;
  if current_shares =? 0 then
    print "❌ No shares to redeem"
  else
  (* Use all shares if redeeming more than available *)
  let shares_to_redeem := Z.min (SHARES_TO_REDEEM cfg) current_shares in
  (* Preview redemption *)
  preview <- call multivault (previewRedeem (TERM_ID cfg) (CURVE_ID cfg) shares_to_redeem) ;;
  let '(expected_assets, shares_used) := preview in
  let min_assets := expected_assets * (10000 - SLIPPAGE_BPS cfg) / 10000 in
  (* Redeem *)
  nonce <- get_transaction_count account ;;
  gasPrice <- gas_price ;;
  redeem_tx <- build_transaction {|
    tx_to := multivault;
    tx_call := redeem account (TERM_ID cfg) (CURVE_ID cfg) shares_to_redeem min_assets;
    tx_from := account;
    tx_nonce := nonce;
    tx_gas := 200000;
    tx_gasPrice := gasPrice;
    tx_value := None |} ;;
  signed_redeem <- sign_transaction redeem_tx ;;
  tx_hash <- send_raw_transaction signed_redeem ;;
  receipt <- wait_for_transaction_receipt tx_hash ;;
  (* Get new shares *)
  new_shares <- call multivault (getShares account (TERM_ID cfg) (CURVE_ID cfg)) ;;
  Ret tt.

Definition report (e : Exn) : list string := ["❌ Error: " ++ exn_str e]%string.

Definition script (h : Handler) : Trace * Z := run_script main report h.

End Script.
End RedeemShares.

(** ** deposit-vault.py *)

Module DepositVault.

Record Config := mkConfig {
  MULTIVAULT_ADDRESS : string;
  WTRUST_ADDRESS : string;
  PRIVATE_KEY : string;
  TERM_ID : bytes;
  CURVE_ID : Z;
  DEPOSIT_AMOUNT : Z;
  SLIPPAGE_BPS : Z
}.

Definition defaults (private_key : string) : Config := {|
  MULTIVAULT_ADDRESS := "0x6E35cF57A41fA15eA0EaE9C33e751b01A784Fe7e";
  WTRUST_ADDRESS := "0x81cFb09cb44f7184Ad934C09F82000701A4bF672";
  PRIVATE_KEY := private_key;
  TERM_ID := default "" (fromhex "0000000000000000000000000000000000000000000000000000000000000001");
  CURVE_ID := 1;
  DEPOSIT_AMOUNT := to_wei_ether 5;
  SLIPPAGE_BPS := 100
|}.

Section Script.
Context `{Web3Lib} (cfg : Config).

Definition main : Prog unit :=
  print ("Depositing into Vault" ++ nl)%string ;;
  account <- lift (from_key (PRIVATE_KEY cfg)) ;;
  let multivault := to_checksum_address (MULTIVAULT_ADDRESS cfg) in
  let wtrust := to_checksum_address (WTRUST_ADDRESS cfg) in
  (* Verify vault exists *)
  vault_exists <- call multivault (isTermCreated (TERM_ID cfg)) ;;
  if negb vault_exists then
    Raise (Exception "Vault does not exist")
  else
  (* Get current shares *)
  current_shares <- call multivault (getShares account (TERM_ID cfg) (CURVE_ID cfg)) ;;
  (* Preview deposit *)
  preview <- call multivault (previewDeposit (TERM_ID cfg) (CURVE_ID cfg) (DEPOSIT_AMOUNT cfg)) ;;
  let '(expected_shares, assets_after_fees) := preview in
  let min_shares := expected_shares * (10000 - SLIPPAGE_BPS cfg) / 10000 in
  (* Approve *)
  nonce <- get_transaction_count account ;;
  gasPrice <- gas_price ;;
  approve_tx <- build_transaction {|
    tx_to := wtrust;
    tx_call := approve multivault (DEPOSIT_AMOUNT cfg);
    tx_from := account;
    tx_nonce := nonce;
    tx_gas := 100000;
    tx_gasPrice := gasPrice;
    tx_value := None |} ;;
  signed <- sign_transaction approve_tx ;;
  send_raw_transaction signed ;;
  print ("✓ Approved" ++ nl)%string ;;
  (* Deposit *)
  nonce <- get_transaction_count account ;;
  gasPrice <- gas_price ;;
  deposit_tx <- build_transaction {|
    tx_to := multivault;
    tx_call := deposit account (TERM_ID cfg) (CURVE_ID cfg) min_shares;
    tx_from := account;
    tx_nonce := nonce;
    tx_gas := 200000;
    tx_gasPrice := gasPrice;
    tx_value := Some 0 |} ;;
  signed_deposit <- sign_transaction deposit_tx ;;
  tx_hash <- send_raw_transaction signed_deposit ;;
  receipt <- wait_for_transaction_receipt tx_hash ;;
  (* Get new shares *)
  new_shares <- call multivault (getShares account (TERM_ID cfg) (CURVE_ID cfg)) ;;
  Ret tt.

Definition report (e : Exn) : list string := ["❌ Error: " ++ exn_str e]%string.

Definition script (h : Handler) : Trace * Z := run_script main report h.

End Script.
End DepositVault.

(** ** claim-rewards.py *)

Module ClaimRewards.

Record Config := mkConfig {
  TRUST_BONDING_ADDRESS : string;
  PRIVATE_KEY : string
}.

Definition defaults (private_key : string) : Config := {|
  TRUST_BONDING_ADDRESS := "0x635bBD1367B66E7B16a21D6E5A63C812fFC00617";
  PRIVATE_KEY := private_key
|}.

Section Script.
Context `{Web3Lib} (cfg : Config).

Definition main : Prog unit :=
  print ("Claiming TRUST Rewards" ++ nl)%string ;;
  account <- lift (from_key (PRIVATE_KEY cfg)) ;;
  let trust_bonding := to_checksum_address (TRUST_BONDING_ADDRESS cfg) in
  (* Get epoch info *)
  current_epoch <- call trust_bonding currentEpoch ;;
  previous_epoch <- call trust_bonding previousEpoch ;;
  (* Get user info *)
  user_info <- call trust_bonding (getUserInfo account) ;;
  let bonded_balance := bondedBalance user_info in
  let eligible_rewards := eligibleRewards user_info in
  if bonded_balance =? 0 then
    print "⚠ No bonded balance. Lock TRUST tokens first to earn rewards."
  else
  (* Get claimable rewards *)
  claimable <- call trust_bonding (getUserCurrentClaimableRewards account) ;;
  if claimable =? 0 then
    print "⚠ No rewards to claim at this time"
  else
  (* Get APY *)
  apy <- call trust_bonding (getUserApy account) ;;
  let '(current_apy, max_apy) := apy in
  (* Claim rewards *)
  print "Claiming rewards..." ;;
  nonce <- get_transaction_count account ;;
  gasPrice <- gas_price ;;
  claim_tx <- build_transaction {|
    tx_to := trust_bonding;
    tx_call := claimRewards account;
    tx_from := account;
    tx_nonce := nonce;
    tx_gas := 150000;
    tx_gasPrice := gasPrice;
    tx_value := None |} ;;
  signed_claim <- sign_transaction claim_tx ;;
  tx_hash <- send_raw_transaction signed_claim ;;
  receipt <- wait_for_transaction_receipt tx_hash ;;
  Ret tt.

Definition report (e : Exn) : list string := ["❌ Error: " ++ exn_str e]%string.

Definition script (h : Handler) : Trace * Z := run_script main report h.

End Script.
End ClaimRewards.

(** ** create-atom.py *)

Module CreateAtom.

Record Config := mkConfig {
  MULTIVAULT_ADDRESS : string;
  WTRUST_ADDRESS : string;
  PRIVATE_KEY : string;
  ATOM_DATA : bytes;
  DEPOSIT_AMOUNT : Z
}.

Definition defaults (private_key : string) : Config := {|
  MULTIVAULT_ADDRESS := "0x6E35cF57A41fA15eA0EaE9C33e751b01A784Fe7e";
  WTRUST_ADDRESS := "0x81cFb09cb44f7184Ad934C09F82000701A4bF672";
  PRIVATE_KEY := private_key;
  ATOM_DATA := "My First Atom";
  DEPOSIT_AMOUNT := to_wei_ether 10
|}.

Section Script.
Context `{Web3Lib} (cfg : Config).

Definition main : Prog unit :=
  print (str_times "=" 80) ;;
  print "Creating Atom Vault on Intuition Protocol" ;;
  print (str_times "=" 80) ;;
  print "" ;;
  (* Step 1: Setup Web3 Connection *)
  print "Step 1: Connecting to Intuition network..." ;;
  connected <- is_connected ;;
  if negb connected then
    Raise (Exception "Failed to connect to Intuition network")
  else
  account <- lift (from_key (PRIVATE_KEY cfg)) ;;
  print "" ;;
  eth_balance <- get_balance account ;;
  print "" ;;
  (* Step 2: Initialize Contract Instances *)
  print "Step 2: Initializing contract instances..." ;;
  let multivault := to_checksum_address (MULTIVAULT_ADDRESS cfg) in
  let wtrust := to_checksum_address (WTRUST_ADDRESS cfg) in
  print "" ;;
  (* Step 3: Check WTRUST Balance and Get Atom Cost *)
  print "Step 3: Checking WTRUST balance and atom creation cost..." ;;
  wtrust_balance <- call wtrust (balanceOf account) ;;
  atom_cost <- call multivault getAtomCost ;;
  let total_required := DEPOSIT_AMOUNT cfg + atom_cost in
  if wtrust_balance <? total_required then
    Raise (Exception ("Insufficient WTRUST balance. "
                      ++ "Need " ++ from_wei_ether total_required ++ " "
                      ++ "but have " ++ from_wei_ether wtrust_balance)%string)
  else
  print "✓ Sufficient balance confirmed" ;;
  print "" ;;
  (* Step 4: Calculate Atom ID and Check Existence *)
  print "Step 4: Calculating atom ID and checking if it exists..." ;;
  atom_id <- call multivault (calculateAtomId (ATOM_DATA cfg)) ;;
  atom_exists <- call multivault (isTermCreated atom_id) ;;
  if atom_exists then
    print "⚠ Warning: This atom already exists!"
  else
  print "✓ Atom does not exist yet, safe to create" ;;
  print "" ;;
  (* Step 5: Approve WTRUST Spending *)
  print "Step 5: Approving WTRUST spending..." ;;
  current_allowance <- call wtrust (allowance account multivault) ;;
  (if current_allowance <? total_required then
     print "Approving WTRUST tokens..." ;;
     nonce <- get_transaction_count account ;;
     gasPrice <- gas_price ;;
     approve_tx <- build_transaction {|
       tx_to := wtrust;
       tx_call := approve multivault total_required;
       tx_from := account;
       tx_nonce := nonce;
       tx_gas := 100000;
       tx_gasPrice := gasPrice;
       tx_value := None |} ;;
     signed_approve <- sign_transaction approve_tx ;;
     approve_hash <- send_raw_transaction signed_approve ;;
     approve_receipt <- wait_for_transaction_receipt approve_hash ;;
     Ret tt
   else
     print "✓ Sufficient allowance already exists") ;;
  print "" ;;
  (* Step 6: Create Atom *)
  print "Step 6: Creating atom vault..." ;;
  lift (decode_utf8 (ATOM_DATA cfg)) ;;
  print "" ;;
  nonce <- get_transaction_count account ;;
  gasPrice <- gas_price ;;
  create_tx <- build_transaction {|
    tx_to := multivault;
    tx_call := createAtoms [ATOM_DATA cfg] [DEPOSIT_AMOUNT cfg];
    tx_from := account;
    tx_nonce := nonce;
    tx_gas := 400000;
    tx_gasPrice := gasPrice;
    tx_value := Some 0 |} ;;
  signed_create <- sign_transaction create_tx ;;
  create_hash <- send_raw_transaction signed_create ;;
  print "Waiting for confirmation..." ;;
  receipt <- wait_for_transaction_receipt create_hash ;;
  print "" ;;
  (* Step 7: Parse Events *)
  print "Step 7: Parsing transaction events..." ;;
  atom_created_event <- process_receipt receipt ;;
  match atom_created_event with
  | event :: _ =>
      print "AtomCreated Event:" ;;
      lift (decode_utf8 (atomData event)) ;;
      print ""
  | [] => Ret tt
  end ;;
  print (str_times "=" 80) ;;
  print "✓ Atom creation successful!" ;;
  print (str_times "=" 80).

Definition report (error : Exn) : list string :=
  [ "";
    str_times "=" 80;
    "❌ Error creating atom:";
    str_times "=" 80;
    ("Message: " ++ exn_str error)%string;
    "" ].

Definition script (h : Handler) : Trace * Z := run_script main report h.

End Script.
End CreateAtom.

(** ** create-triple.py *)

Module CreateTriple.

Record Config := mkConfig {
  MULTIVAULT_ADDRESS : string;
  WTRUST_ADDRESS : string;
  PRIVATE_KEY : string;
  SUBJECT_ID : bytes;
  PREDICATE_ID : bytes;
  OBJECT_ID : bytes;
  DEPOSIT_AMOUNT : Z
}.

Definition defaults (private_key : string) : Config := {|
  MULTIVAULT_ADDRESS := "0x6E35cF57A41fA15eA0EaE9C33e751b01A784Fe7e";
  WTRUST_ADDRESS := "0x81cFb09cb44f7184Ad934C09F82000701A4bF672";
  PRIVATE_KEY := private_key;
  SUBJECT_ID := default "" (fromhex "0000000000000000000000000000000000000000000000000000000000000001");
  PREDICATE_ID := default "" (fromhex "0000000000000000000000000000000000000000000000000000000000000002");
  OBJECT_ID := default "" (fromhex "0000000000000000000000000000000000000000000000000000000000000003");
  DEPOSIT_AMOUNT := to_wei_ether 20
|}.

Section Script.
Context `{Web3Lib} (cfg : Config).

(** The message of the exception raised for a missing atom. *)
Definition missing (atom_id : bytes) : string :=
  ("Atom " ++ hex atom_id ++ " does not exist")%string.

Definition main : Prog unit :=
  print ("Creating Triple Vault" ++ nl)%string ;;
  account <- lift (from_key (PRIVATE_KEY cfg)) ;;
  let multivault := to_checksum_address (MULTIVAULT_ADDRESS cfg) in
  let wtrust := to_checksum_address (WTRUST_ADDRESS cfg) in
  (* Verify atoms exist *)
  print "Verifying atoms exist..." ;;
  for_each [SUBJECT_ID cfg; PREDICATE_ID cfg; OBJECT_ID cfg] (fun atom_id =>
    atom_exists <- call multivault (isTermCreated atom_id) ;;
    if negb atom_exists then
      Raise (Exception (missing atom_id))
    else Ret tt) ;;
  print ("✓ All atoms exist" ++ nl)%string ;;
  (* Calculate triple ID *)
  triple_id <- call multivault
    (calculateTripleId (SUBJECT_ID cfg) (PREDICATE_ID cfg) (OBJECT_ID cfg)) ;;
  (* Check if triple exists *)
  triple_exists <- call multivault (isTermCreated triple_id) ;;
  if triple_exists then
    print "⚠ Triple already exists"
  else
  (* Get cost and approve *)
  triple_cost <- call multivault getTripleCost ;;
  let total_amount := DEPOSIT_AMOUNT cfg + triple_cost in
  (* Approve WTRUST *)
  print "Approving WTRUST..." ;;
  nonce <- get_transaction_count account ;;
  gasPrice <- gas_price ;;
  approve_tx <- build_transaction {|
    tx_to := wtrust;
    tx_call := approve multivault total_amount;
    tx_from := account;
    tx_nonce := nonce;
    tx_gas := 100000;
    tx_gasPrice := gasPrice;
    tx_value := None |} ;;
  signed <- sign_transaction approve_tx ;;
  send_raw_transaction signed ;;
  print ("✓ Approved" ++ nl)%string ;;
  (* Create triple *)
  print "Creating triple..." ;;
  nonce <- get_transaction_count account ;;
  gasPrice <- gas_price ;;
  create_tx <- build_transaction {|
    tx_to := multivault;
    tx_call := createTriples [SUBJECT_ID cfg] [PREDICATE_ID cfg] [OBJECT_ID cfg]
                 [DEPOSIT_AMOUNT cfg];
    tx_from := account;
    tx_nonce := nonce;
    tx_gas := 500000;
    tx_gasPrice := gasPrice;
    tx_value := Some 0 |} ;;
  signed_create <- sign_transaction create_tx ;;
  tx_hash <- send_raw_transaction signed_create ;;
  receipt <- wait_for_transaction_receipt tx_hash ;;
  Ret tt.

Definition report (e : Exn) : list string := ["❌ Error: " ++ exn_str e]%string.

Definition script (h : Handler) : Trace * Z := run_script main report h.

End Script.
End CreateTriple.

(** ** event-indexer.py *)

Module EventIndexer.

Record Config := mkConfig {
  MULTIVAULT_ADDRESS : string
}.

Definition defaults : Config := {|
  MULTIVAULT_ADDRESS := "0x6E35cF57A41fA15eA0EaE9C33e751b01A784Fe7e"
|}.

Section Script.
Context `{Web3Lib} (cfg : Config).

(** Event signatures *)
Definition ATOM_CREATED_TOPIC : string :=
  keccak_text_hex "AtomCreated(address,bytes32,bytes,address)".
Definition TRIPLE_CREATED_TOPIC : string :=
  keccak_text_hex "TripleCreated(address,bytes32,bytes32,bytes32,bytes32)".
Definition DEPOSITED_TOPIC : string :=
  keccak_text_hex "Deposited(address,address,bytes32,uint256,uint256,uint256,uint256,uint256,uint8)".
Definition REDEEMED_TOPIC : string :=
  keccak_text_hex "Redeemed(address,address,bytes32,uint256,uint256,uint256,uint256,uint256,uint8)".

(** Query historical events from a block range. *)
Definition query_historical_events (from_block to_block : Z)
    : Prog (gmap string (list LogEntry)) :=
  print ("Querying blocks " ++ str_int from_block ++ " to " ++ str_int to_block
         ++ "..." ++ nl)%string ;;
  let multivault_address := to_checksum_address (MULTIVAULT_ADDRESS cfg) in
  let events : gmap string (list LogEntry) :=
    <["redemptions" := []]> (<["deposits" := []]>
      (<["triples_created" := []]> (<["atoms_created" := []]> ∅))) in
  (* Query AtomCreated events *)
  let atom_filter := {|
    fromBlock := from_block;
    toBlock := to_block;
    filter_address := multivault_address;
    topics := [ATOM_CREATED_TOPIC] |} in
  atom_logs <- get_logs atom_filter ;;
  let events := <["atoms_created" := atom_logs]> events in
  print ("Found " ++ str_int (Z.of_nat (length atom_logs))
         ++ " AtomCreated events")%string ;;
  (* Query TripleCreated events *)
  let triple_filter := {|
    fromBlock := from_block;
    toBlock := to_block;
    filter_address := multivault_address;
    topics := [TRIPLE_CREATED_TOPIC] |} in
  triple_logs <- get_logs triple_filter ;;
  let events := <["triples_created" := triple_logs]> events in
  print ("Found " ++ str_int (Z.of_nat (length triple_logs))
         ++ " TripleCreated events")%string ;;
  (* Query Deposited events *)
  let deposit_filter := {|
    fromBlock := from_block;
    toBlock := to_block;
    filter_address := multivault_address;
    topics := [DEPOSITED_TOPIC] |} in
  deposit_logs <- get_logs deposit_filter ;;
  let events := <["deposits" := deposit_logs]> events in
  print ("Found " ++ str_int (Z.of_nat (length deposit_logs))
         ++ " Deposited events")%string ;;
  (* Query Redeemed events *)
  let redeem_filter := {|
    fromBlock := from_block;
    toBlock := to_block;
    filter_address := multivault_address;
    topics := [REDEEMED_TOPIC] |} in
  redeem_logs <- get_logs redeem_filter ;;
  let events := <["redemptions" := redeem_logs]> events in
  print ("Found " ++ str_int (Z.of_nat (length redeem_logs))
         ++ " Redeemed events" ++ nl)%string ;;
  Ret events.

(** Query events for a specific user. *)
Definition query_user_events (user_address : string) (from_block to_block : Z)
    : Prog (gmap string (list LogEntry)) :=
  print ("Querying events for user: " ++ user_address ++ nl)%string ;;
  let multivault_address := to_checksum_address (MULTIVAULT_ADDRESS cfg) in
  (* Pad address to 32 bytes *)
  let user_topic := ("0x" ++ zfill 64 (str_drop 2 user_address))%string in
  let events : gmap string (list LogEntry) :=
    <["redemptions" := []]> (<["deposits" := []]> (<["atoms_created" := []]> ∅)) in
  (* Query user's created atoms *)
  let atom_filter := {|
    fromBlock := from_block;
    toBlock := to_block;
    filter_address := multivault_address;
    topics := [ATOM_CREATED_TOPIC; user_topic] |} in
  atom_logs <- get_logs atom_filter ;;
  let events := <["atoms_created" := atom_logs]> events in
  print ("User created " ++ str_int (Z.of_nat (length atom_logs)) ++ " atoms")%string ;;
  (* Query user's deposits (as sender) *)
  let deposit_filter := {|
    fromBlock := from_block;
    toBlock := to_block;
    filter_address := multivault_address;
    topics := [DEPOSITED_TOPIC; user_topic] |} in
  deposit_logs <- get_logs deposit_filter ;;
  let events := <["deposits" := deposit_logs]> events in
  print ("User made " ++ str_int (Z.of_nat (length deposit_logs))
         ++ " deposits")%string ;;
  (* Query user's redemptions (as sender) *)
  let redeem_filter := {|
    fromBlock := from_block;
    toBlock := to_block;
    filter_address := multivault_address;
    topics := [REDEEMED_TOPIC; user_topic] |} in
  redeem_logs <- get_logs redeem_filter ;;
  let events := <["redemptions" := redeem_logs]> events in
  print ("User made " ++ str_int (Z.of_nat (length redeem_logs))
         ++ " redemptions" ++ nl)%string ;;
  Ret events.

End Script.
End EventIndexer.

(** ** A scripted environment, for concrete runs

    A chain in a fixed state: every read has one answer, every transaction is
    accepted and mined on submission, and the nonce of the account is the
    number of transactions it has submitted so far. *)

Record Chain := mkChain {
  node_up : bool;
  created : bytes -> bool;
  atom_cost : Z;
  triple_cost : Z;
  wtrust_balance : Z;
  wtrust_allowance : Z;
  vault_shares : Z;
  preview : Z -> Z * Z;
  bonding : UserInfo;
  claimable_rewards : Z;
  emitted : Filter -> list LogEntry
}.

Definition answer_call (w : Chain) (f : ContractFn) : ret f :=
  match f return ret f with
  | createAtoms _ _ => []
  | calculateAtomId data => ("atom:" ++ data)%string
  | isTermCreated id => created w id
  | getAtomCost => atom_cost w
  | createTriples _ _ _ _ => []
  | calculateTripleId s p o => ("triple:" ++ s ++ p ++ o)%string
  | getTripleCost => triple_cost w
  | deposit _ _ _ _ => 0
  | previewDeposit _ _ assets => preview w assets
  | getShares _ _ _ => vault_shares w
  | redeem _ _ _ _ _ => 0
  | previewRedeem _ _ shares => preview w shares
  | approve _ _ => true
  | allowance _ _ => wtrust_allowance w
  | balanceOf _ => wtrust_balance w
  | currentEpoch => 2
  | previousEpoch => 1
  | getUserCurrentClaimableRewards _ => claimable_rewards w
  | getUserApy _ => (500, 1000)
  | getUserInfo _ => bonding w
  | claimRewards _ => tt
  end.

Definition answer (w : Chain) : Handler := fun past c =>
  match c return Exn + resp c with
  | IsConnected => inr (node_up w)
  | GetBalance _ => inr (to_wei_ether 1)
  | Call _ f => inr (answer_call w f)
  | GetTransactionCount _ => inr (Z.of_nat (length (submitted past)))
  | GasPrice => inr 1000000000
  | BuildTransaction _ => inr tt
  | SignTransaction _ => inr tt
  | SendRawTransaction _ => inr ("0x" ++ zeros (S (length (submitted past))))%string
  | WaitForTransactionReceipt _ =>
      inr {| blockNumber := 12345 + Z.of_nat (length (submitted past));
             gasUsed := 21000;
             status := 1 |}
  | ProcessReceipt _ => inr []
  | GetLogs f => inr (emitted w f)
  end.

(** An endpoint that cannot be reached: every request raises. *)
Definition unreachable : Handler := fun _ _ =>
  inl {| exn_class := "ConnectionError"; exn_str := "connection refused" |}.

(** A stand-in for the library: addresses are kept as written, the account of
    a key is the key itself behind ["0x"], the empty key is rejected, and the
    hash of a text is the text behind a tag (so distinct texts have distinct
    hashes). *)
Definition toy_lib : Web3Lib := {|
  to_checksum_address := fun a => a;
  from_key := fun k =>
    if String.eqb k "" then
      inl {| exn_class := "ValueError"; exn_str := "invalid private key" |}
    else inr ("0x" ++ k)%string;
  keccak_text_hex := fun s => ("0xkeccak:" ++ s)%string;
  from_wei_ether := fun _ => "?";
  decode_utf8 := fun b => inr b
|}.

(** A chain where every id of 32 bytes is created (the default atoms and the
    default vault are) and no derived id is, the account holds 100 WTRUST and
    3 shares, has granted no allowance, and has rewards to claim. *)
Definition funded : Chain := {|
  node_up := true;
  created := fun id => (String.length id =? 32)%nat;
  atom_cost := to_wei_ether 1 / 10;
  triple_cost := to_wei_ether 1 / 10;
  wtrust_balance := to_wei_ether 100;
  wtrust_allowance := 0;
  vault_shares := to_wei_ether 3;
  preview := fun amount => (amount * 2, amount);
  bonding := {| personalUtilization := 0; eligibleRewards := 7; maxRewards := 9;
                lockedAmount := 50; lockEnd := 99; bondedBalance := 50 |};
  claimable_rewards := 7;
  emitted := fun _ => []
|}.


(** [w], with another answer to the previews. *)
Definition with_preview (quote : Z -> Z * Z) (w : Chain) : Chain := {|
  node_up := node_up w;
  created := created w;
  atom_cost := atom_cost w;
  triple_cost := triple_cost w;
  wtrust_balance := wtrust_balance w;
  wtrust_allowance := wtrust_allowance w;
  vault_shares := vault_shares w;
  preview := quote;
  bonding := bonding w;
  claimable_rewards := claimable_rewards w;
  emitted := emitted w
|}.

(** ** Approval before spend, as a check on a trace

    [pending] holds the hashes of the approvals submitted and not yet
    confirmed by a receipt.  The check fails at the first transaction other
    than an approval that is submitted while an approval is pending. *)

Definition is_approval (tx : Tx) : bool :=
  match tx_call tx with
  | approve _ _ => true
  | _ => false
  end.

Fixpoint spend_guard (pending : list string) (tr : Trace) : bool :=
  match tr with
  | [] => true
  | Called (SendRawTransaction tx) v :: rest =>
      if is_approval tx then
        match v with
        | VStr tx_hash => spend_guard (tx_hash :: pending) rest
        | _ => spend_guard pending rest
        end
      else
        match pending with
        | [] => spend_guard pending rest
        | _ :: _ => false
        end
  | Called (WaitForTransactionReceipt tx_hash) (VReceipt _) :: rest =>
      spend_guard (filter (fun p => negb (String.eqb p tx_hash)) pending) rest
  | _ :: rest => spend_guard pending rest
  end.

(** ** The life of a transaction, as a check on the calls of a run

    [fresh_parameters]: a transaction is built right after the nonce of its
    sender and the gas price were read, in this order, and carries both as
    they were answered.  [built_signed_sent]: a transaction is signed right
    after it was built, and sent right after it was signed. *)

Definition fresh_parameters (cs : list (Req * Value)) : Prop :=
  forall (i : nat) tx v,
    cs !! i = Some (BuildTransaction tx, v) ->
    exists j : nat,
      i = S (S j) /\
      cs !! j = Some (GetTransactionCount (tx_from tx), VInt (tx_nonce tx)) /\
      cs !! S j = Some (GasPrice, VInt (tx_gasPrice tx)).

Definition built_signed_sent (cs : list (Req * Value)) : Prop :=
  (forall (i : nat) tx v,
      cs !! i = Some (SignTransaction tx, v) ->
      exists j : nat, i = S j /\ cs !! j = Some (BuildTransaction tx, VNone)) /\
  (forall (i : nat) tx v,
      cs !! i = Some (SendRawTransaction tx, v) ->
      exists j : nat, i = S j /\ cs !! j = Some (SignTransaction tx, VNone)).

(** ** More scripted environments *)

Definition UnicodeDecodeError : Exn :=
  {| exn_class := "UnicodeDecodeError";
     exn_str := "'utf-8' codec can't decode byte" |}.

(** The stand-in for the library, with a decoder that accepts the characters
    of one byte only. *)
Definition ascii_lib : Web3Lib := {|
  to_checksum_address := fun a => a;
  from_key := fun k => inr ("0x" ++ k)%string;
  keccak_text_hex := fun s => ("0xkeccak:" ++ s)%string;
  from_wei_ether := fun _ => "?";
  decode_utf8 := fun b =>
    if forallb (fun c => (nat_of_ascii c <? 128)%nat) (list_ascii_of_string b)
    then inr b
    else inl UnicodeDecodeError
|}.

(** [h], where every transaction is mined and reverted. *)
Definition reverted (h : Handler) : Handler := fun past c =>
  match c return Exn + resp c with
  | WaitForTransactionReceipt _ =>
      inr {| blockNumber := 12345; gasUsed := 21000; status := 0 |}
  | c' => h past c'
  end.

(** [h], where these events are read from every receipt. *)
Definition with_events (events : list AtomCreatedArgs) (h : Handler) : Handler :=
  fun past c =>
    match c return Exn + resp c with
    | ProcessReceipt _ => inr events
    | c' => h past c'
    end.

(** ** Sessions: the indexer's [main] and its monitor

    [main] of [event-indexer.py] prompts on the console, reads the head of
    the chain, and in its third mode polls a filter until it is interrupted.
    A session is a script that can also make these requests, can be ended by
    a [KeyboardInterrupt] wherever it waits for an answer, and can catch it.
    The [while True] loop runs for a number of rounds given from outside; a
    loop that has not ended within them is [Spin]. *)

(** What can end a call other than its result. *)
Inductive Stop :=
| Error (e : Exn)
| KeyboardInterrupt.

(** The requests of a session.  [ReadInput prompt] is [input(prompt)]: the
    prompt is written by [input] itself and belongs to the request, it is no
    line of a [print]. *)
Inductive Ask :=
| Node (c : Req)
| ReadInput (prompt : string)
| GetBlockNumber
| NewFilter (contract : address)
| GetNewEntries
| Sleep (seconds : Z).

Definition reply (a : Ask) : Type :=
  match a with
  | Node c => resp c
  | ReadInput _ => string
  | GetBlockNumber => Z
  | NewFilter _ | Sleep _ => unit
  | GetNewEntries => list LogEntry
  end.

Definition reply_value (a : Ask) : reply a -> Value :=
  match a with
  | Node c => to_value c
  | ReadInput _ => VStr
  | GetBlockNumber => VInt
  | NewFilter _ | Sleep _ => fun _ => VNone
  | GetNewEntries => VLogs
  end.

(** How a request ended, as written in the trace of a session. *)
Inductive Answer :=
| Gave (v : Value)
| Interrupted.

Definition answer_of (a : Ask) (r : Stop + reply a) : Answer :=
  match r with
  | inl (Error e) => Gave (VRaised e)
  | inl KeyboardInterrupt => Interrupted
  | inr v => Gave (reply_value a v)
  end.

Inductive Step :=
| Asked (a : Ask) (r : Answer)
| Said (line : string).

Inductive Session (A : Type) : Type :=
| Done (a : A)
| Halt (s : Stop)
| Say (line : string) (k : Session A)
| Do (a : Ask) (k : Stop + reply a -> Session A)
| Spin.

Arguments Done {A} a.
Arguments Halt {A} s.
Arguments Say {A} line k.
Arguments Do {A} a k.
Arguments Spin {A}.

Fixpoint and_then {A B : Type} (p : Session A) (f : A -> Session B) : Session B :=
  match p with
  | Done a => f a
  | Halt s => Halt s
  | Say line k => Say line (and_then k f)
  | Do a k => Do a (fun r => and_then (k r) f)
  | Spin => Spin
  end.

Declare Scope session_scope.
Delimit Scope session_scope with session.
Bind Scope session_scope with Session.
Notation "x <- p ;; q" := (and_then p (fun x => q))
  (at level 100, p at next level, right associativity) : session_scope.
Notation "p ;; q" := (and_then p (fun _ => q))
  (at level 100, right associativity) : session_scope.

(** A request whose failure is not handled where it is made. *)
Definition ask (a : Ask) : Session (reply a) :=
  Do a (fun r => match r with
                 | inl s => Halt s
                 | inr v => Done v
                 end).

Definition say (line : string) : Session unit := Say line (Done tt).

(** A script of the other files, run inside a session. *)
Fixpoint node {A : Type} (p : Prog A) : Session A :=
  match p with
  | Ret a => Done a
  | Raise e => Halt (Error e)
  | Emit line k => Say line (node k)
  | Vis c k => Do (Node c) (fun r => match r with
                                     | inl s => Halt s
                                     | inr v => node (k v)
                                     end)
  end.

(** [try: body except KeyboardInterrupt: handler] *)
Fixpoint except_keyboard_interrupt {A : Type} (body handler : Session A) : Session A :=
  match body with
  | Done a => Done a
  | Halt KeyboardInterrupt => handler
  | Halt (Error e) => Halt (Error e)
  | Say line k => Say line (except_keyboard_interrupt k handler)
  | Do a k => Do a (fun r => except_keyboard_interrupt (k r) handler)
  | Spin => Spin
  end.

(** [for x in xs: body(x)] *)
Fixpoint each {X : Type} (xs : list X) (body : X -> Session unit) : Session unit :=
  match xs with
  | [] => Done tt
  | x :: rest => and_then (body x) (fun _ => each rest body)
  end.

(** [while True: body], for [rounds] rounds. *)
Fixpoint while_true (rounds : nat) (body : Session unit) : Session unit :=
  match rounds with
  | O => Spin
  | S rounds' => and_then body (fun _ => while_true rounds' body)
  end.

(** How a session ended. *)
Inductive Outcome (A : Type) : Type :=
| Returned (a : A)
| Raised (e : Exn)
| Interrupt
| Running.

Arguments Returned {A} a.
Arguments Raised {A} e.
Arguments Interrupt {A}.
Arguments Running {A}.

(** The console, the node and the operator, seen from the session. *)
Definition World := list Step -> forall a : Ask, Stop + reply a.

Fixpoint perform {A : Type} (p : Session A) (w : World) (past : list Step)
    : list Step * Outcome A :=
  match p with
  | Done a => (past, Returned a)
  | Halt (Error e) => (past, Raised e)
  | Halt KeyboardInterrupt => (past, Interrupt)
  | Say line k => perform k w (past ++ [Said line])
  | Do a k => perform (k (w past a)) w (past ++ [Asked a (answer_of a (w past a))])
  | Spin => (past, Running)
  end.

(** The weakest precondition of a session, whatever the world answers. *)
Fixpoint holds {A : Type} (p : Session A) (Q : list Step -> Outcome A -> Prop)
    (past : list Step) : Prop :=
  match p with
  | Done a => Q past (Returned a)
  | Halt (Error e) => Q past (Raised e)
  | Halt KeyboardInterrupt => Q past Interrupt
  | Say line k => holds k Q (past ++ [Said line])
  | Do a k => forall r, holds (k r) Q (past ++ [Asked a (answer_of a r)])
  | Spin => Q past Running
  end.

(** The lines printed in a session, in order. *)
Definition said (tr : list Step) : list string :=
  omap (fun s => match s with
                 | Said line => Some line
                 | Asked _ _ => None
                 end) tr.

(** The requests made in a session with how they ended, in order. *)
Definition asked (tr : list Step) : list (Ask * Answer) :=
  omap (fun s => match s with
                 | Asked a r => Some (a, r)
                 | Said _ => None
                 end) tr.

(** The logs the filter has handed over, in order. *)
Definition polled (tr : list Step) : list LogEntry :=
  flat_map (fun s => match s with
                     | Asked GetNewEntries (Gave (VLogs entries)) => entries
                     | _ => []
                     end) tr.

(** A request that was answered, and not by an exception. *)
Definition went_well (r : Answer) : bool :=
  match r with
  | Gave (VRaised _) | Interrupted => false
  | Gave _ => true
  end.

Definition settled (request : Ask * Answer) : bool := went_well (snd request).

(** A log without topics. *)
Definition bare (event : LogEntry) : bool :=
  match log_topics event with
  | [] => true
  | _ :: _ => false
  end.

(** A poll, then a sleep of two seconds, and so on; the last may lack its
    sleep. *)
Fixpoint poll_and_sleep (requests : list Ask) : bool :=
  match requests with
  | [] => true
  | GetNewEntries :: rest =>
      match rest with
      | [] => true
      | Sleep 2 :: rest' => poll_and_sleep rest'
      | _ => false
      end
  | _ => false
  end.

Module EventMonitor.

Record Config := mkConfig {
  MULTIVAULT_ADDRESS : string;
  WS_RPC_URL : string
}.

Definition defaults : Config := {|
  MULTIVAULT_ADDRESS := "0x6E35cF57A41fA15eA0EaE9C33e751b01A784Fe7e";
  WS_RPC_URL := "YOUR_INTUITION_WS_RPC_URL"
|}.

(** The constants the query functions read. *)
Definition queries (cfg : Config) : EventIndexer.Config :=
  {| EventIndexer.MULTIVAULT_ADDRESS := MULTIVAULT_ADDRESS cfg |}.

Section Script.
Context `{Web3Lib} (cfg : Config).
Local Open Scope session_scope.

(** [[][0]] *)
Definition IndexError : Exn :=
  {| exn_class := "IndexError"; exn_str := "list index out of range" |}.

(** [d[k]] for a missing key; [str(e)] is the key in quotes. *)
Definition KeyError (key : string) : Exn :=
  {| exn_class := "KeyError"; exn_str := ("'" ++ key ++ "'")%string |}.

(** The body of [for event in new_entries].  The topics and the transaction
    hash of a log are held as [.hex()] gives them. *)
Definition handle (event : LogEntry) : Session unit :=
  match log_topics event with
  | [] => Halt (Error IndexError)
  | topic :: _ =>
      (if String.eqb topic EventIndexer.ATOM_CREATED_TOPIC then
         say "🔵 AtomCreated" ;;
         say ("   Block: " ++ str_int (log_blockNumber event))%string ;;
         say ("   Tx: " ++ log_transactionHash event)%string
       else if String.eqb topic EventIndexer.TRIPLE_CREATED_TOPIC then
         say "🟢 TripleCreated" ;;
         say ("   Block: " ++ str_int (log_blockNumber event))%string ;;
         say ("   Tx: " ++ log_transactionHash event)%string
       else if String.eqb topic EventIndexer.DEPOSITED_TOPIC then
         say "🟡 Deposited" ;;
         say ("   Block: " ++ str_int (log_blockNumber event))%string ;;
         say ("   Tx: " ++ log_transactionHash event)%string
       else if String.eqb topic EventIndexer.REDEEMED_TOPIC then
         say "🔴 Redeemed" ;;
         say ("   Block: " ++ str_int (log_blockNumber event))%string ;;
         say ("   Tx: " ++ log_transactionHash event)%string
       else Done tt) ;;
      say ""
  end.

(** What handling a list of logs prints: for each log whose leading topic is
    one of the four, its marker, its block and its transaction; for every
    log an empty line; nothing from the first log without topics on. *)
Definition marker (topic : string) : option string :=
  if String.eqb topic EventIndexer.ATOM_CREATED_TOPIC then Some "🔵 AtomCreated"
  else if String.eqb topic EventIndexer.TRIPLE_CREATED_TOPIC then Some "🟢 TripleCreated"
  else if String.eqb topic EventIndexer.DEPOSITED_TOPIC then Some "🟡 Deposited"
  else if String.eqb topic EventIndexer.REDEEMED_TOPIC then Some "🔴 Redeemed"
  else None.

Definition described (event : LogEntry) (topic : string) : list string :=
  match marker topic with
  | Some line =>
      [ line;
        ("   Block: " ++ str_int (log_blockNumber event))%string;
        ("   Tx: " ++ log_transactionHash event)%string ]
  | None => []
  end.

Fixpoint shown (events : list LogEntry) : list string :=
  match events with
  | [] => []
  | event :: rest =>
      match log_topics event with
      | [] => []
      | topic :: _ => described event topic ++ "" :: shown rest
      end
  end.

(** Monitor events in real-time using WebSocket. *)
Definition monitor_real_time_events (rounds : nat) (ws_url : string) : Session unit :=
  say "Connecting to WebSocket for real-time monitoring..." ;;
  say ("Press Ctrl+C to stop" ++ nl)%string ;;
  (* Create filter for all MultiVault events *)
  event_filter <- ask (NewFilter (to_checksum_address (MULTIVAULT_ADDRESS cfg))) ;;
  except_keyboard_interrupt
    (while_true rounds
       ((* Get new entries *)
        new_entries <- ask GetNewEntries ;;
        each new_entries handle ;;
        (* Small delay to avoid hammering the node *)
        ask (Sleep 2)))
    (say (nl ++ "Stopping event monitor...")%string).

(** Main indexer function. *)
Definition main (rounds : nat) : Session unit :=
  say (str_times "=" 60) ;;
  say "Intuition Protocol Event Indexer" ;;
  say (str_times "=" 60) ;;
  say "" ;;
  (* Mode selection *)
  mode <- ask (ReadInput "Select mode (1=historical, 2=user, 3=realtime): ") ;;
  if String.eqb mode "1" then
    (* Historical query *)
    current_block <- ask GetBlockNumber ;;
    let from_block := current_block - 1000 in
    events <- node (EventIndexer.query_historical_events (queries cfg)
                      from_block current_block) ;;
    (* Display first atom created if any *)
    match events !! "atoms_created" with
    | None => Halt (Error (KeyError "atoms_created"))
    | Some [] => Done tt
    | Some (first_atom :: _) =>
        say "First AtomCreated event:" ;;
        say ("  Block: " ++ str_int (log_blockNumber first_atom))%string ;;
        say ("  Tx: " ++ log_transactionHash first_atom)%string
    end
  else if String.eqb mode "2" then
    (* User-specific query *)
    user_address <- ask (ReadInput "Enter user address: ") ;;
    current_block <- ask GetBlockNumber ;;
    let from_block := current_block - 1000 in
    events <- node (EventIndexer.query_user_events (queries cfg) user_address
                      from_block current_block) ;;
    Done tt
  else if String.eqb mode "3" then
    (* Real-time monitoring *)
    if String.eqb (WS_RPC_URL cfg) "" then
      say "❌ WebSocket RPC URL not configured"
    else
      monitor_real_time_events rounds (WS_RPC_URL cfg)
  else
    say "Invalid mode selected".

End Script.

(** How the process ended: with a status, by the interrupt that nothing
    caught, or not at all within the rounds. *)
Inductive Exit :=
| Status (code : Z)
| Killed
| StillRunning.

(** The [__main__] guard. *)
Definition script `{Web3Lib} (cfg : Config) (rounds : nat) (w : World)
    : list Step * Exit :=
  match perform (main cfg rounds) w [] with
  | (tr, Returned _) => (tr, Status 0)
  | (tr, Raised e) => (tr ++ [Said ("❌ Error: " ++ exn_str e)%string], Status 1)
  | (tr, Interrupt) => (tr, Killed)
  | (tr, Running) => (tr, StillRunning)
  end.

End EventMonitor.

(** ** A scripted operator, for concrete sessions

    The operator types the lines of [typed] at the prompts, one after the
    other, and the console is at its end after them; the head of the chain is
    [head_block]; the node answers a script's requests as [chain] does; the
    filter answers the polls as [plan] says, one after the other, and the
    operator presses Ctrl+C at the poll after the last. *)

Definition EOFError : Exn :=
  {| exn_class := "EOFError"; exn_str := "EOF when reading a line" |}.

Definition prompts (past : list Step) : nat :=
  length (List.filter (fun s => match s with
                           | Asked (ReadInput _) _ => true
                           | _ => false
                           end) past).

Definition polls (past : list Step) : nat :=
  length (List.filter (fun s => match s with
                           | Asked GetNewEntries _ => true
                           | _ => false
                           end) past).

Definition operator (typed : list string) (head_block : Z) (chain : Chain)
    (plan : list (Stop + list LogEntry)) : World := fun past a =>
  match a return Stop + reply a with
  | Node c =>
      match answer chain [] c with
      | inl e => inl (Error e)
      | inr v => inr v
      end
  | ReadInput _ =>
      match typed !! prompts past with
      | Some line => inr line
      | None => inl (Error EOFError)
      end
  | GetBlockNumber => inr head_block
  | NewFilter _ => inr tt
  | GetNewEntries =>
      match plan !! polls past with
      | Some r => r
      | None => inl KeyboardInterrupt
      end
  | Sleep _ => inr tt
  end.

(** * Reasoning about runs *)

Local Set Warnings "-clear-no-such-hyp".

(** [wp] is sound: a run against any environment ends in the postcondition. *)
Lemma wp_run {A : Type} (p : Prog A) (Q : Trace -> Exn + A -> Prop) :
  forall (h : Handler) (past : Trace),
    wp p Q past -> Q (fst (run p h past)) (snd (run p h past)).
Proof.
  induction p as [a | e | s k IH | c k IH]; intros h past Hwp; simpl in *.
  - exact Hwp.
  - exact Hwp.
  - apply IH. exact Hwp.
  - destruct Hwp as [Hraise Hanswer].
    destruct (h past c) as [e | r]; simpl.
    + apply Hraise.
    + apply IH, Hanswer.
Qed.

(** Turn a goal about [run p h past] into the weakest precondition of [p]. *)
Ltac by_wp :=
  unfold trace_of, outcome_of;
  match goal with
  | |- context [run ?p ?h ?past] =>
      pattern (fst (run p h past)), (snd (run p h past));
      apply (wp_run p _ h past)
  end.

(** One step of symbolic execution: split on what blocks the script. *)
Ltac unblock p :=
  lazymatch p with
  | bind ?q _ => unblock q
  | lift ?x => destruct x as [?|?] eqn:?
  | if ?b then _ else _ => destruct b eqn:?
  | let '(_, _) := ?x in _ => destruct x as [? ?]
  | match ?x with [] => _ | _ :: _ => _ end => destruct x as [|? ?]
  end.

Ltac wp_step :=
  match goal with
  | |- wp ?p _ _ => unblock p
  | |- (forall _, _) /\ (forall _, _) => split; intro
  end.

Ltac wp_exec := cbn; repeat (wp_step; cbn).

(** Membership in an explicit trace: settle each equation before the next
    disjunction is opened. *)
Ltac cases :=
  repeat match goal with
  | H : False |- _ => destruct H
  | H : ?x <> ?x |- _ => destruct H; reflexivity
  | H : _ /\ _ |- _ => destruct H
  | H : ex _ |- _ => destruct H
  | H : @eq (Req * Value) _ _ |- _ => simplify_eq H; clear H; intros; subst
  | H : @eq Tx _ _ |- _ => simplify_eq H; clear H; intros; subst
  | H : _ \/ _ |- _ => destruct H as [H|H]
  end.

(** The tests the scripts branch on, as propositions. *)
Ltac tests :=
  repeat match goal with
  | H : (_ =? _) = true |- _ => apply Z.eqb_eq in H
  | H : (_ =? _) = false |- _ => apply Z.eqb_neq in H
  | H : (_ <? _) = true |- _ => apply Z.ltb_lt in H
  | H : (_ <? _) = false |- _ => apply Z.ltb_ge in H
  | H : negb _ = true |- _ => apply negb_true_iff in H
  | H : negb _ = false |- _ => apply negb_false_iff in H
  end.

(** Close a leaf: a statement about a trace that is now an explicit list. *)
Ltac leaf :=
  unfold not; intros; cbn in *; cases;
  repeat (split; unfold not; intros; cbn in *; cases);
  simplify_eq/=; tests; subst; try done; try lia.

(** Point at an entry of an explicit list. *)
Ltac pick := solve [cbn; repeat first [left; reflexivity | right]].

(** The same in a closed trace, after computing it. *)
Ltac found := vm_compute; solve [repeat first [left; reflexivity | right]].

(** ** The slippage bound *)

(** The floor of [e * (10000 - bps) / 10000] never exceeds [e]; it is [e] for
    [bps = 0], and for a positive [e] only then. *)
Lemma floor_bound (e bps : Z) :
  0 <= e -> 0 <= bps ->
  e * (10000 - bps) / 10000 <= e /\
  (bps = 0 -> e * (10000 - bps) / 10000 = e) /\
  (0 < e -> e * (10000 - bps) / 10000 = e -> bps = 0).
Proof.
  intros He Hbps. repeat split.
  - apply Z.div_le_upper_bound; nia.
  - intros ->. rewrite Z.sub_0_r. apply Z.div_mul. lia.
  - intros Hpos Heq.
    destruct (Z.eq_dec bps 0) as [|Hne]; [assumption | exfalso].
    assert (e * (10000 - bps) / 10000 < e) by (apply Z.div_lt_upper_bound; nia).
    lia.
Qed.

(** ** redeem-shares.py *)

Section RedeemSharesFacts.
Context `{Web3Lib} (cfg : RedeemShares.Config) (h : Handler).

Let tr := trace_of (RedeemShares.main cfg) h.
Let out := outcome_of (RedeemShares.main cfg) h.

(** A zero balance ends the script after its first read. *)
Lemma redeem_zero_balance c a t k :
  head (calls tr) = Some (Call c (getShares a t k), VInt 0) ->
  out = inr tt /\
  calls tr = [(Call c (getShares a t k), VInt 0)] /\
  transactions tr = [] /\
  last (stdout tr) = Some "❌ No shares to redeem".
Proof.
  subst tr out. by_wp. unfold RedeemShares.main. wp_exec; leaf.
Qed.


(** The floor handed to [redeem] comes from the previewed assets. *)
Lemma redeem_min_assets c t k s e u tx r t' k' s' m :
  In (Call c (previewRedeem t k s), VPair e u) (calls tr) ->
  In tx (transactions tr) -> tx_call tx = redeem r t' k' s' m ->
  m = e * (10000 - RedeemShares.SLIPPAGE_BPS cfg) / 10000.
Proof.
  subst tr out. revert c t k s e u tx r t' k' s' m.
  by_wp. unfold RedeemShares.main. wp_exec; leaf.
Qed.


End RedeemSharesFacts.

(** ** deposit-vault.py *)

Section DepositVaultFacts.
Context `{Web3Lib} (cfg : DepositVault.Config) (h : Handler).

Let tr := trace_of (DepositVault.main cfg) h.
Let multivault := to_checksum_address (DepositVault.MULTIVAULT_ADDRESS cfg).
Let wtrust := to_checksum_address (DepositVault.WTRUST_ADDRESS cfg).

(** The floor handed to [deposit] comes from the previewed shares. *)
Lemma deposit_min_shares c t k a e u tx r t' k' m :
  In (Call c (previewDeposit t k a), VPair e u) (calls tr) ->
  In tx (transactions tr) -> tx_call tx = deposit r t' k' m ->
  m = e * (10000 - DepositVault.SLIPPAGE_BPS cfg) / 10000.
Proof.
  subst tr. revert c t k a e u tx r t' k' m.
  by_wp. unfold DepositVault.main. wp_exec; leaf.
Qed.



(** Whenever the deposit is submitted, the approval submitted before it is
    still unconfirmed. *)
Lemma deposit_not_confirmed tx :
  In tx (submitted tr) -> is_approval tx = false ->
  spend_guard [] tr = false.
Proof.
  subst tr. revert tx.
  by_wp. unfold DepositVault.main. wp_exec; leaf.
Qed.


End DepositVaultFacts.

(** ** claim-rewards.py *)

Section ClaimRewardsFacts.
Context `{Web3Lib} (cfg : ClaimRewards.Config) (h : Handler).

Let tr := trace_of (ClaimRewards.main cfg) h.
Let out := outcome_of (ClaimRewards.main cfg) h.
Let trust_bonding := to_checksum_address (ClaimRewards.TRUST_BONDING_ADDRESS cfg).

Lemma claim_zero_bonded c a info :
  In (Call c (getUserInfo a), VUserInfo info) (calls tr) ->
  bondedBalance info = 0 ->
  out = inr tt /\ transactions tr = [] /\
  last (stdout tr) =
    Some "⚠ No bonded balance. Lock TRUST tokens first to earn rewards.".
Proof.
  subst tr out. revert c a info.
  by_wp. unfold ClaimRewards.main. wp_exec; leaf.
Qed.

Lemma claim_zero_claimable c a :
  In (Call c (getUserCurrentClaimableRewards a), VInt 0) (calls tr) ->
  out = inr tt /\ transactions tr = [] /\
  last (stdout tr) = Some "⚠ No rewards to claim at this time".
Proof.
  subst tr out. revert c a.
  by_wp. unfold ClaimRewards.main. wp_exec; leaf.
Qed.

(** A claim transaction is only reached past both checks. *)
Lemma claim_only_when_nonzero tx :
  In tx (transactions tr) ->
  exists c a info claimable,
    In (Call c (getUserInfo a), VUserInfo info) (calls tr) /\
    bondedBalance info <> 0 /\
    In (Call c (getUserCurrentClaimableRewards a), VInt claimable) (calls tr) /\
    claimable <> 0.
Proof.
  subst tr out. revert tx. by_wp. unfold ClaimRewards.main. wp_exec; leaf.
  all: do 4 eexists; split_and!; [pick | lia | pick | lia].
Qed.

(** Past both checks, a run that returns has submitted the claim, once. *)
Lemma claim_submitted c a info claimable :
  In (Call c (getUserInfo a), VUserInfo info) (calls tr) ->
  In (Call c (getUserCurrentClaimableRewards a), VInt claimable) (calls tr) ->
  bondedBalance info <> 0 -> claimable <> 0 -> out = inr tt ->
  exists tx, submitted tr = [tx] /\ tx_call tx = claimRewards a.
Proof.
  subst tr out. revert c a info claimable.
  by_wp. unfold ClaimRewards.main. wp_exec; leaf.
  all: eexists; split; reflexivity.
Qed.

(** Every transaction of the script is [claimRewards(account.address)] sent
    from [account.address] to the TrustBonding contract. *)
Lemma claim_transaction tx :
  In tx (transactions tr) ->
  exists account,
    from_key (ClaimRewards.PRIVATE_KEY cfg) = inr account /\
    tx_call tx = claimRewards account /\
    tx_from tx = account /\
    tx_to tx = trust_bonding.
Proof.
  subst tr out trust_bonding. revert tx.
  by_wp. unfold ClaimRewards.main. wp_exec; leaf.
  all: eexists; split_and!; reflexivity.
Qed.

End ClaimRewardsFacts.
(** ** create-atom.py *)

Section CreateAtomFacts.
Context `{Web3Lib} (cfg : CreateAtom.Config) (h : Handler).

Let tr := trace_of (CreateAtom.main cfg) h.
Let out := outcome_of (CreateAtom.main cfg) h.
Let multivault := to_checksum_address (CreateAtom.MULTIVAULT_ADDRESS cfg).
Let wtrust := to_checksum_address (CreateAtom.WTRUST_ADDRESS cfg).

(** An atom that is already created ends the script with a warning. *)
Lemma atom_exists_noop c d id c' :
  In (Call c (calculateAtomId d), VStr id) (calls tr) ->
  In (Call c' (isTermCreated id), VBool true) (calls tr) ->
  out = inr tt /\ transactions tr = [] /\
  last (stdout tr) = Some "⚠ Warning: This atom already exists!".
Proof.
  subst tr out. revert c d id c'.
  by_wp. unfold CreateAtom.main. wp_exec; leaf.
Qed.



(** The creation is never submitted while the approval is unconfirmed. *)
Lemma atom_confirms_before_spend : spend_guard [] tr = true.
Proof.
  subst tr out. by_wp. unfold CreateAtom.main. wp_exec; leaf.
  all: rewrite ?String.eqb_refl; reflexivity.
Qed.


End CreateAtomFacts.

(** ** create-triple.py *)

Section CreateTripleFacts.
Context `{Web3Lib} (cfg : CreateTriple.Config) (h : Handler).

Let tr := trace_of (CreateTriple.main cfg) h.
Let out := outcome_of (CreateTriple.main cfg) h.
Let multivault := to_checksum_address (CreateTriple.MULTIVAULT_ADDRESS cfg).
Let wtrust := to_checksum_address (CreateTriple.WTRUST_ADDRESS cfg).




(** A triple that is already created ends the script with a warning. *)
Lemma triple_exists_noop c id :
  calls tr !! 3%nat =
    Some (Call c (calculateTripleId (CreateTriple.SUBJECT_ID cfg)
                    (CreateTriple.PREDICATE_ID cfg) (CreateTriple.OBJECT_ID cfg)),
          VStr id) ->
  calls tr !! 4%nat = Some (Call c (isTermCreated id), VBool true) ->
  out = inr tt /\ transactions tr = [] /\
  last (stdout tr) = Some "⚠ Triple already exists".
Proof.
  subst tr out. revert c id.
  by_wp. unfold CreateTriple.main. wp_exec; leaf.
Qed.



(** Whenever the creation is submitted, the approval is still unconfirmed. *)
Lemma triple_not_confirmed tx :
  In tx (submitted tr) -> is_approval tx = false ->
  spend_guard [] tr = false.
Proof.
  subst tr. revert tx.
  by_wp. unfold CreateTriple.main. wp_exec; leaf.
Qed.


End CreateTripleFacts.
(** ** The [__main__] guard *)

Lemma transactions_printed (tr : Trace) (lines : list string) :
  transactions (tr ++ map Printed lines) = transactions tr.
Proof.
  unfold transactions. rewrite omap_app.
  induction lines as [|l lines IH]; simpl.
  - apply app_nil_r.
  - exact IH.
Qed.

(** The exit status is 1 when [main] raises and 0 when it returns; the
    report adds output and no transaction. *)
Lemma run_script_exit (main : Prog unit) (report : Exn -> list string) (h : Handler) :
  (snd (run_script main report h) = 1 <-> exists e, outcome_of main h = inl e) /\
  (snd (run_script main report h) = 0 <-> outcome_of main h = inr tt) /\
  transactions (fst (run_script main report h)) = transactions (trace_of main h).
Proof.
  unfold run_script, outcome_of, trace_of.
  destruct (run main h []) as [tr [e | []]]; simpl.
  - rewrite transactions_printed. split_and!; [split | split |]; eauto; discriminate.
  - split_and!; [split | split |]; try done. intros [e He]. discriminate.
Qed.

(** ** event-indexer.py *)

Lemma zeros_length (n : nat) : String.length (zeros n) = n.
Proof. induction n as [|n IH]; simpl; [reflexivity | now rewrite IH]. Qed.

Lemma append_length (s1 s2 : string) :
  String.length (s1 ++ s2)%string = (String.length s1 + String.length s2)%nat.
Proof. induction s1 as [|c s1 IH]; simpl; [reflexivity | now rewrite IH]. Qed.

(** [zfill] never shortens, and pads up to the width. *)
Lemma zfill_length (width : nat) (s : string) :
  String.length (zfill width s) = Nat.max width (String.length s).
Proof.
  unfold zfill. destruct s as [|c rest]; simpl.
  - rewrite zeros_length. lia.
  - destruct (Ascii.eqb c "+" || Ascii.eqb c "-")%bool; simpl;
      rewrite append_length, zeros_length; simpl; lia.
Qed.

Lemma str_drop_length (n : nat) (s : string) :
  String.length (str_drop n s) = (String.length s - n)%nat.
Proof.
  revert s. induction n as [|n IH]; intros [|c s]; simpl; auto.
Qed.

Section EventIndexerFacts.
Context `{Web3Lib} (cfg : EventIndexer.Config) (h : Handler).
Context (from_block to_block : Z).

(** The range query of the script for a topics list. *)
Let range (topics : list string) : Req :=
  GetLogs {| fromBlock := from_block;
             toBlock := to_block;
             filter_address := to_checksum_address (EventIndexer.MULTIVAULT_ADDRESS cfg);
             topics := topics |}.

(** A historical query that returns made the four range queries, one per
    kind, and maps each kind to the logs the node answered. *)
Lemma historical_queries (events : gmap string (list LogEntry)) :
  outcome_of (EventIndexer.query_historical_events cfg from_block to_block) h
    = inr events ->
  exists atoms triples deposits redemptions,
    calls (trace_of (EventIndexer.query_historical_events cfg from_block to_block) h) =
      [ (range [EventIndexer.ATOM_CREATED_TOPIC], VLogs atoms);
        (range [EventIndexer.TRIPLE_CREATED_TOPIC], VLogs triples);
        (range [EventIndexer.DEPOSITED_TOPIC], VLogs deposits);
        (range [EventIndexer.REDEEMED_TOPIC], VLogs redemptions) ] /\
    events !! "atoms_created" = Some atoms /\
    events !! "triples_created" = Some triples /\
    events !! "deposits" = Some deposits /\
    events !! "redemptions" = Some redemptions.
Proof.
  subst range. revert events.
  by_wp. unfold EventIndexer.query_historical_events. wp_exec; leaf.
  do 4 eexists. split_and!; [reflexivity | by simplify_map_eq ..].
Qed.

(** A user query that returns made three range queries, for the atoms, the
    deposits and the redemptions, each with the user topic after the event
    topic, and maps each of the three kinds to the logs the node answered. *)
Lemma user_queries (user_address : string) (events : gmap string (list LogEntry)) :
  let user_topic := ("0x" ++ zfill 64 (str_drop 2 user_address))%string in
  outcome_of (EventIndexer.query_user_events cfg user_address from_block to_block) h
    = inr events ->
  exists atoms deposits redemptions,
    calls (trace_of (EventIndexer.query_user_events cfg user_address
                       from_block to_block) h) =
      [ (range [EventIndexer.ATOM_CREATED_TOPIC; user_topic], VLogs atoms);
        (range [EventIndexer.DEPOSITED_TOPIC; user_topic], VLogs deposits);
        (range [EventIndexer.REDEEMED_TOPIC; user_topic], VLogs redemptions) ] /\
    events !! "atoms_created" = Some atoms /\
    events !! "deposits" = Some deposits /\
    events !! "redemptions" = Some redemptions /\
    events !! "triples_created" = None.
Proof.
  subst range. cbv zeta. revert events.
  by_wp. unfold EventIndexer.query_user_events. wp_exec; leaf.
  do 3 eexists. split_and!; [reflexivity | by simplify_map_eq ..].
Qed.

End EventIndexerFacts.

(** For an address of 42 characters the user topic has 66: ["0x"] and 64
    digits. *)
Lemma user_topic_length (user_address : string) :
  String.length user_address = 42%nat ->
  String.length ("0x" ++ zfill 64 (str_drop 2 user_address))%string = 66%nat.
Proof.
  intros Hlen. rewrite append_length, zfill_length, str_drop_length, Hlen.
  reflexivity.
Qed.

(** ** Hexadecimal *)







(** ** Two runs of the guard *)

(** An endpoint that refuses every request: [create-atom.py] raises at
    [is_connected] and exits with 1 after the error banner. *)
Example unreachable_exits_with_1 :
  CreateAtom.script (H := toy_lib) (CreateAtom.defaults "a11ce") unreachable =
  ( [ Printed (str_times "=" 80);
      Printed "Creating Atom Vault on Intuition Protocol";
      Printed (str_times "=" 80);
      Printed "";
      Printed "Step 1: Connecting to Intuition network...";
      Called IsConnected
        (VRaised {| exn_class := "ConnectionError"; exn_str := "connection refused" |});
      Printed "";
      Printed (str_times "=" 80);
      Printed "❌ Error creating atom:";
      Printed (str_times "=" 80);
      Printed "Message: connection refused";
      Printed "" ],
    1 ).
Proof. vm_compute. reflexivity. Qed.

(** No private key in the environment: [claim-rewards.py] raises before its
    first request. *)
Example empty_key_exits_with_1 :
  ClaimRewards.script (H := toy_lib) (ClaimRewards.defaults "") (answer funded) =
  ( [ Printed ("Claiming TRUST Rewards" ++ nl)%string;
      Printed "❌ Error: invalid private key" ],
    1 ).
Proof. vm_compute. reflexivity. Qed.

(** * The claims *)

(** ** Allowance *)




(** C2, at a failing input: the default configurations against a chain
    that accepts every request.  [create-triple.py] and [deposit-vault.py]
    submit the approval and then the spend, and the only receipt they await
    is the spend's: the approval is unconfirmed when the spend is submitted.
    [create-atom.py] awaits the approval's receipt first.  The same holds
    against every environment: where [create-triple.py] or
    [deposit-vault.py] submits its spend the approval is unconfirmed, and
    [create-atom.py] never submits while an approval is. *)
Theorem spend_before_confirmation :
  let triple :=
    trace_of (CreateTriple.main (H := toy_lib) (CreateTriple.defaults "a11ce"))
      (answer funded) in
  let deposit :=
    trace_of (DepositVault.main (H := toy_lib) (DepositVault.defaults "a11ce"))
      (answer funded) in
  let atom :=
    trace_of (CreateAtom.main (H := toy_lib) (CreateAtom.defaults "a11ce"))
      (answer funded) in
  (map is_approval (submitted triple) = [true; false] /\
   awaited triple = ["0x00"] /\
   In (Called (SendRawTransaction
                 {| tx_to := "0x81cFb09cb44f7184Ad934C09F82000701A4bF672";
                    tx_call := approve "0x6E35cF57A41fA15eA0EaE9C33e751b01A784Fe7e"
                                 (to_wei_ether 20 + to_wei_ether 1 / 10);
                    tx_from := "0xa11ce";
                    tx_nonce := 0;
                    tx_gas := 100000;
                    tx_gasPrice := 1000000000;
                    tx_value := None |}) (VStr "0x0")) triple /\
   spend_guard [] triple = false) /\
  (map is_approval (submitted deposit) = [true; false] /\
   awaited deposit = ["0x00"] /\
   spend_guard [] deposit = false) /\
  (map is_approval (submitted atom) = [true; false] /\
   awaited atom = ["0x0"; "0x00"] /\
   spend_guard [] atom = true) /\
  (forall (lib : Web3Lib) (h : Handler),
      (forall cfg tx,
          In tx (submitted (trace_of (CreateTriple.main cfg) h)) ->
          is_approval tx = false ->
          spend_guard [] (trace_of (CreateTriple.main cfg) h) = false) /\
      (forall cfg tx,
          In tx (submitted (trace_of (DepositVault.main cfg) h)) ->
          is_approval tx = false ->
          spend_guard [] (trace_of (DepositVault.main cfg) h) = false) /\
      (forall cfg, spend_guard [] (trace_of (CreateAtom.main cfg) h) = true)).
Proof.
  cbv zeta. split_and!; try (vm_compute; reflexivity).
  - found.
  - intros lib h. split_and!.
    + intros cfg. apply (triple_not_confirmed cfg h).
    + intros cfg. apply (deposit_not_confirmed cfg h).
    + intros cfg. apply (atom_confirms_before_spend cfg h).
Qed.

(** ** The slippage bound *)

(** C3, as stated, fails at an expected amount of zero: with the default
    100 basis points and a preview of zero shares, the floor handed to
    [deposit] equals the expected amount. *)
Lemma zero_preview_bound_equals_expected :
  let cfg := DepositVault.defaults "a11ce" in
  let tr :=
    trace_of (DepositVault.main (H := toy_lib) cfg)
      (answer (with_preview (fun _ => (0, 0)) funded)) in
  exists c t k a expected u tx r t' k' bound,
    In (Call c (previewDeposit t k a), VPair expected u) (calls tr) /\
    In tx (submitted tr) /\ tx_call tx = deposit r t' k' bound /\
    0 <= expected /\ 0 <= DepositVault.SLIPPAGE_BPS cfg /\
    bound = expected /\ DepositVault.SLIPPAGE_BPS cfg <> 0.
Proof.
  cbv zeta.
  exists "0x6E35cF57A41fA15eA0EaE9C33e751b01A784Fe7e",
    (DepositVault.TERM_ID (DepositVault.defaults "a11ce")), 1, (to_wei_ether 5), 0, 0,
    {| tx_to := "0x6E35cF57A41fA15eA0EaE9C33e751b01A784Fe7e";
       tx_call := deposit "0xa11ce"
                    (DepositVault.TERM_ID (DepositVault.defaults "a11ce")) 1 0;
       tx_from := "0xa11ce";
       tx_nonce := 1;
       tx_gas := 200000;
       tx_gasPrice := 1000000000;
       tx_value := Some 0 |},
    "0xa11ce", (DepositVault.TERM_ID (DepositVault.defaults "a11ce")), 1, 0.
  split_and!; try reflexivity; try found; vm_compute; discriminate.
Qed.

(** C3, amended.  For a non-negative expected amount and non-negative basis
    points, the floor handed to [deposit] (and to [redeem]) is
    [expected * (10000 - bps)] floor-divided by 10000; it never exceeds the
    expected amount; it equals it for [bps = 0]; and for a positive expected
    amount it equals it only for [bps = 0]. *)
Theorem slippage_bound_floor `{Web3Lib} (h : Handler) :
  (forall (cfg : DepositVault.Config) c t k a expected u tx r t' k' bound,
      let tr := trace_of (DepositVault.main cfg) h in
      let bps := DepositVault.SLIPPAGE_BPS cfg in
      0 <= expected -> 0 <= bps ->
      In (Call c (previewDeposit t k a), VPair expected u) (calls tr) ->
      In tx (transactions tr) -> tx_call tx = deposit r t' k' bound ->
      bound = expected * (10000 - bps) / 10000 /\
      bound <= expected /\
      (bps = 0 -> bound = expected) /\
      (0 < expected -> bound = expected -> bps = 0)) /\
  (forall (cfg : RedeemShares.Config) c t k s expected u tx r t' k' s' bound,
      let tr := trace_of (RedeemShares.main cfg) h in
      let bps := RedeemShares.SLIPPAGE_BPS cfg in
      0 <= expected -> 0 <= bps ->
      In (Call c (previewRedeem t k s), VPair expected u) (calls tr) ->
      In tx (transactions tr) -> tx_call tx = redeem r t' k' s' bound ->
      bound = expected * (10000 - bps) / 10000 /\
      bound <= expected /\
      (bps = 0 -> bound = expected) /\
      (0 < expected -> bound = expected -> bps = 0)).
Proof.
  split.
  - intros cfg c t k a expected u tx r t' k' bound tr bps He Hbps Hprev Htx Hcall.
    assert (bound = expected * (10000 - bps) / 10000) as ->
      by exact (deposit_min_shares cfg h _ _ _ _ _ _ _ _ _ _ _ Hprev Htx Hcall).
    split; [reflexivity | apply floor_bound; assumption].
  - intros cfg c t k s expected u tx r t' k' s' bound tr bps He Hbps Hprev Htx Hcall.
    assert (bound = expected * (10000 - bps) / 10000) as ->
      by exact (redeem_min_assets cfg h _ _ _ _ _ _ _ _ _ _ _ _ Hprev Htx Hcall).
    split; [reflexivity | apply floor_bound; assumption].
Qed.

(** The end-to-end example of the specification: 1000 expected shares at
    1% give a floor of 990. *)
Lemma slippage_bound_floor_witness :
  990 = 1000 * (10000 - 100) / 10000 /\ 990 <= 1000 /\
  (100 = 0 -> 990 = 1000) /\ (0 < 1000 -> 990 = 1000 -> 100 = 0).
Proof.
  refine (proj1 (slippage_bound_floor (H := toy_lib)
                   (answer (with_preview (fun _ => (1000, 20)) funded)))
            (DepositVault.defaults "a11ce")
            "0x6E35cF57A41fA15eA0EaE9C33e751b01A784Fe7e"
            (DepositVault.TERM_ID (DepositVault.defaults "a11ce")) 1 (to_wei_ether 5)
            1000 20
            {| tx_to := "0x6E35cF57A41fA15eA0EaE9C33e751b01A784Fe7e";
               tx_call := deposit "0xa11ce"
                            (DepositVault.TERM_ID (DepositVault.defaults "a11ce")) 1 990;
               tx_from := "0xa11ce";
               tx_nonce := 1;
               tx_gas := 200000;
               tx_gasPrice := 1000000000;
               tx_value := Some 0 |}
            "0xa11ce" (DepositVault.TERM_ID (DepositVault.defaults "a11ce")) 1 990
            _ _ _ _ _).
  - lia.
  - vm_compute. discriminate.
  - found.
  - found.
  - reflexivity.
Defined.

(** ** Redeeming *)



(** ** Creating a triple *)



(** ** Creating what exists *)




(** ** Claiming rewards *)

(** C7.  With a bonded balance of zero, or claimable rewards of zero,
    [claim-rewards.py] prints its warning as its last line and returns with
    no transaction built, signed or submitted.  A transaction is only
    reached with both read as nonzero, and a run that returns past both
    has submitted exactly one transaction, the claim. *)
Theorem claim_short_circuits `{Web3Lib} (cfg : ClaimRewards.Config) (h : Handler) :
  let tr := trace_of (ClaimRewards.main cfg) h in
  let out := outcome_of (ClaimRewards.main cfg) h in
  (forall c a info,
      In (Call c (getUserInfo a), VUserInfo info) (calls tr) ->
      bondedBalance info = 0 ->
      out = inr tt /\ transactions tr = [] /\
      last (stdout tr) =
        Some "⚠ No bonded balance. Lock TRUST tokens first to earn rewards.") /\
  (forall c a,
      In (Call c (getUserCurrentClaimableRewards a), VInt 0) (calls tr) ->
      out = inr tt /\ transactions tr = [] /\
      last (stdout tr) = Some "⚠ No rewards to claim at this time") /\
  (forall tx,
      In tx (transactions tr) ->
      exists c a info claimable,
        In (Call c (getUserInfo a), VUserInfo info) (calls tr) /\
        bondedBalance info <> 0 /\
        In (Call c (getUserCurrentClaimableRewards a), VInt claimable) (calls tr) /\
        claimable <> 0) /\
  (forall c a info claimable,
      In (Call c (getUserInfo a), VUserInfo info) (calls tr) ->
      In (Call c (getUserCurrentClaimableRewards a), VInt claimable) (calls tr) ->
      bondedBalance info <> 0 -> claimable <> 0 -> out = inr tt ->
      exists tx, submitted tr = [tx] /\ tx_call tx = claimRewards a).
Proof.
  cbv zeta. split_and!.
  - apply (claim_zero_bonded cfg h).
  - apply (claim_zero_claimable cfg h).
  - apply (claim_only_when_nonzero cfg h).
  - apply (claim_submitted cfg h).
Qed.

(** The end-to-end example of the specification: nothing is bonded. *)
Lemma claim_short_circuits_witness :
  let nothing_bonded :=
    mkChain true (fun _ => false) 0 0 0 0 0 (fun x => (x, x))
      (mkUserInfo 0 7 9 0 0 0) 7 (fun _ => []) in
  let tr := trace_of (ClaimRewards.main (H := toy_lib) (ClaimRewards.defaults "a11ce"))
              (answer nothing_bonded) in
  outcome_of (ClaimRewards.main (H := toy_lib) (ClaimRewards.defaults "a11ce"))
    (answer nothing_bonded) = inr tt /\
  transactions tr = [] /\
  last (stdout tr) =
    Some "⚠ No bonded balance. Lock TRUST tokens first to earn rewards.".
Proof.
  intros nothing_bonded tr.
  refine (proj1 (claim_short_circuits (H := toy_lib) (ClaimRewards.defaults "a11ce")
                   (answer nothing_bonded))
            "0x635bBD1367B66E7B16a21D6E5A63C812fFC00617" "0xa11ce"
            (mkUserInfo 0 7 9 0 0 0) _ _).
  - found.
  - reflexivity.
Defined.

(** C9.  Every transaction of [claim-rewards.py] calls [claimRewards] with
    the address of the account the script signs and sends from. *)
Theorem claim_recipient_is_sender `{Web3Lib} (cfg : ClaimRewards.Config)
    (h : Handler) (tx : Tx) :
  In tx (transactions (trace_of (ClaimRewards.main cfg) h)) ->
  exists account,
    from_key (ClaimRewards.PRIVATE_KEY cfg) = inr account /\
    tx_call tx = claimRewards account /\
    tx_from tx = account /\
    tx_to tx = to_checksum_address (ClaimRewards.TRUST_BONDING_ADDRESS cfg).
Proof.
  apply (claim_transaction cfg h).
Qed.

Lemma claim_recipient_is_sender_witness :
  exists account,
    from_key (Web3Lib := toy_lib) "a11ce" = inr account /\
    claimRewards "0xa11ce" = claimRewards account /\
    "0xa11ce" = account /\
    "0x635bBD1367B66E7B16a21D6E5A63C812fFC00617" =
      "0x635bBD1367B66E7B16a21D6E5A63C812fFC00617".
Proof.
  refine (claim_recipient_is_sender (H := toy_lib) (ClaimRewards.defaults "a11ce")
            (answer funded)
            {| tx_to := "0x635bBD1367B66E7B16a21D6E5A63C812fFC00617";
               tx_call := claimRewards "0xa11ce";
               tx_from := "0xa11ce";
               tx_nonce := 0;
               tx_gas := 150000;
               tx_gasPrice := 1000000000;
               tx_value := None |} _).
  found.
Defined.

(** ** Exit status *)

(** C10.  For each of the five scripts the exit status is 1 exactly when
    [main] raises and 0 exactly when it returns; and each short-circuit
    (atom or triple already created, no shares, nothing bonded, nothing
    claimable) exits with 0 and no transaction in the trace. *)
Theorem exit_status `{Web3Lib} (h : Handler) :
  let exits (main : Prog unit) (result : Trace * Z) :=
    (snd result = 1 <-> exists e, outcome_of main h = inl e) /\
    (snd result = 0 <-> outcome_of main h = inr tt) in
  ((forall cfg, exits (CreateAtom.main cfg) (CreateAtom.script cfg h)) /\
   (forall cfg, exits (CreateTriple.main cfg) (CreateTriple.script cfg h)) /\
   (forall cfg, exits (DepositVault.main cfg) (DepositVault.script cfg h)) /\
   (forall cfg, exits (RedeemShares.main cfg) (RedeemShares.script cfg h)) /\
   (forall cfg, exits (ClaimRewards.main cfg) (ClaimRewards.script cfg h))) /\
  (forall (cfg : CreateAtom.Config) c d id c',
      let tr := trace_of (CreateAtom.main cfg) h in
      In (Call c (calculateAtomId d), VStr id) (calls tr) ->
      In (Call c' (isTermCreated id), VBool true) (calls tr) ->
      snd (CreateAtom.script cfg h) = 0 /\
      transactions (fst (CreateAtom.script cfg h)) = []) /\
  (forall (cfg : CreateTriple.Config) c id,
      let tr := trace_of (CreateTriple.main cfg) h in
      calls tr !! 3%nat =
        Some (Call c (calculateTripleId (CreateTriple.SUBJECT_ID cfg)
                        (CreateTriple.PREDICATE_ID cfg) (CreateTriple.OBJECT_ID cfg)),
              VStr id) ->
      calls tr !! 4%nat = Some (Call c (isTermCreated id), VBool true) ->
      snd (CreateTriple.script cfg h) = 0 /\
      transactions (fst (CreateTriple.script cfg h)) = []) /\
  (forall (cfg : RedeemShares.Config) c a t k,
      head (calls (trace_of (RedeemShares.main cfg) h)) =
        Some (Call c (getShares a t k), VInt 0) ->
      snd (RedeemShares.script cfg h) = 0 /\
      transactions (fst (RedeemShares.script cfg h)) = []) /\
  (forall (cfg : ClaimRewards.Config) c a info,
      In (Call c (getUserInfo a), VUserInfo info)
        (calls (trace_of (ClaimRewards.main cfg) h)) ->
      bondedBalance info = 0 ->
      snd (ClaimRewards.script cfg h) = 0 /\
      transactions (fst (ClaimRewards.script cfg h)) = []) /\
  (forall (cfg : ClaimRewards.Config) c a,
      In (Call c (getUserCurrentClaimableRewards a), VInt 0)
        (calls (trace_of (ClaimRewards.main cfg) h)) ->
      snd (ClaimRewards.script cfg h) = 0 /\
      transactions (fst (ClaimRewards.script cfg h)) = []).
Proof.
  assert (Hquiet : forall main report,
             outcome_of main h = inr tt -> transactions (trace_of main h) = [] ->
             snd (run_script main report h) = 0 /\
             transactions (fst (run_script main report h)) = []).
  { intros main report Hout Htx.
    destruct (run_script_exit main report h) as (_ & Hzero & Hsame).
    split; [apply Hzero, Hout | now rewrite Hsame]. }
  cbv zeta. split_and!.
  - intros cfg. split; apply run_script_exit.
  - intros cfg. split; apply run_script_exit.
  - intros cfg. split; apply run_script_exit.
  - intros cfg. split; apply run_script_exit.
  - intros cfg. split; apply run_script_exit.
  - intros cfg c d id c' Hid Hcreated.
    destruct (atom_exists_noop cfg h c d id c' Hid Hcreated) as (Hout & Htx & _).
    apply Hquiet; assumption.
  - intros cfg c id Hid Hcreated.
    destruct (triple_exists_noop cfg h c id Hid Hcreated) as (Hout & Htx & _).
    apply Hquiet; assumption.
  - intros cfg c a t k Hfirst.
    destruct (redeem_zero_balance cfg h c a t k Hfirst) as (Hout & _ & Htx & _).
    apply Hquiet; assumption.
  - intros cfg c a info Hinfo Hzero.
    destruct (claim_zero_bonded cfg h c a info Hinfo Hzero) as (Hout & Htx & _).
    apply Hquiet; assumption.
  - intros cfg c a Hzero.
    destruct (claim_zero_claimable cfg h c a Hzero) as (Hout & Htx & _).
    apply Hquiet; assumption.
Qed.

(** No shares: [redeem-shares.py] exits with 0 and has sent nothing. *)
Lemma exit_status_witness :
  let no_shares :=
    mkChain true (fun _ => true) 0 0 0 0 0 (fun x => (x, x)) (bonding funded) 0
      (fun _ => []) in
  snd (RedeemShares.script (H := toy_lib) (RedeemShares.defaults "a11ce")
         (answer no_shares)) = 0 /\
  transactions (fst (RedeemShares.script (H := toy_lib) (RedeemShares.defaults "a11ce")
                       (answer no_shares))) = [].
Proof.
  intros no_shares.
  refine (proj1 (proj2 (proj2 (proj2 (exit_status (H := toy_lib) (answer no_shares)))))
            (RedeemShares.defaults "a11ce")
            "0x6E35cF57A41fA15eA0EaE9C33e751b01A784Fe7e" "0xa11ce"
            (RedeemShares.TERM_ID (RedeemShares.defaults "a11ce")) 1 _).
  vm_compute. reflexivity.
Defined.

(** ** The user-filtered query *)

(** C8, as stated, fails: the user query is not the historical query with
    the account topic added to each filter.  Over blocks 12000 to 13000 the
    historical query makes four range queries and the user query three; the
    [TripleCreated] query has no counterpart. *)
Lemma user_query_skips_triples :
  let user_address := "0x1234567890123456789012345678901234567890" in
  let user_topic := ("0x" ++ zfill 64 (str_drop 2 user_address))%string in
  let add_topic (c : Req) : Req :=
    match c with
    | GetLogs f => GetLogs {| fromBlock := fromBlock f;
                              toBlock := toBlock f;
                              filter_address := filter_address f;
                              topics := topics f ++ [user_topic] |}
    | _ => c
    end in
  let historical :=
    map fst (calls (trace_of
      (EventIndexer.query_historical_events (H := toy_lib) EventIndexer.defaults
         12000 13000) (answer funded))) in
  let user :=
    map fst (calls (trace_of
      (EventIndexer.query_user_events (H := toy_lib) EventIndexer.defaults
         user_address 12000 13000) (answer funded))) in
  length historical = 4%nat /\ length user = 3%nat /\
  user <> map add_topic historical /\
  exists triples,
    historical !! 1%nat = Some triples /\ ~ In (add_topic triples) user.
Proof.
  cbv zeta. split_and!.
  - vm_compute. reflexivity.
  - vm_compute. reflexivity.
  - intros Heq. apply (f_equal length) in Heq. vm_compute in Heq. discriminate.
  - eexists. split; [vm_compute; reflexivity |].
    vm_compute. intros [Hin | [Hin | [Hin | []]]]; discriminate.
Qed.

(** C8, amended.  A historical query that returns has made one range query
    per kind, four in all, against the MultiVault address over
    [from_block, to_block].  A user query that returns has made three: the
    ones for [AtomCreated], [Deposited] and [Redeemed], each with the user
    topic appended to the topics; [TripleCreated] is not queried and the
    result has no such key.  The result maps each kind to the logs exactly as
    the node answered them.  The user topic is ["0x"] followed by the address
    without its first two characters, zero-filled to 64; for an address of 42
    characters it has 66. *)
Theorem user_query_adds_account_topic `{Web3Lib} (cfg : EventIndexer.Config)
    (h_historical h_user : Handler) (from_block to_block : Z)
    (user_address : string) (historical user : gmap string (list LogEntry)) :
  let user_topic := ("0x" ++ zfill 64 (str_drop 2 user_address))%string in
  let range (topics : list string) : Req :=
    GetLogs {| fromBlock := from_block;
               toBlock := to_block;
               filter_address :=
                 to_checksum_address (EventIndexer.MULTIVAULT_ADDRESS cfg);
               topics := topics |} in
  let historical_run := EventIndexer.query_historical_events cfg from_block to_block in
  let user_run := EventIndexer.query_user_events cfg user_address from_block to_block in
  outcome_of historical_run h_historical = inr historical ->
  outcome_of user_run h_user = inr user ->
  map fst (calls (trace_of historical_run h_historical)) =
    [ range [EventIndexer.ATOM_CREATED_TOPIC];
      range [EventIndexer.TRIPLE_CREATED_TOPIC];
      range [EventIndexer.DEPOSITED_TOPIC];
      range [EventIndexer.REDEEMED_TOPIC] ] /\
  (exists atoms deposits redemptions,
      calls (trace_of user_run h_user) =
        [ (range [EventIndexer.ATOM_CREATED_TOPIC; user_topic], VLogs atoms);
          (range [EventIndexer.DEPOSITED_TOPIC; user_topic], VLogs deposits);
          (range [EventIndexer.REDEEMED_TOPIC; user_topic], VLogs redemptions) ] /\
      user !! "atoms_created" = Some atoms /\
      user !! "deposits" = Some deposits /\
      user !! "redemptions" = Some redemptions /\
      user !! "triples_created" = None) /\
  (String.length user_address = 42%nat -> String.length user_topic = 66%nat).
Proof.
  intros user_topic range historical_run user_run Hhistorical Huser. split_and!.
  - destruct (historical_queries cfg h_historical from_block to_block historical
                Hhistorical) as (atoms & triples & deposits & redemptions & Hcalls & _).
    subst historical_run. rewrite Hcalls. reflexivity.
  - apply (user_queries cfg h_user from_block to_block user_address user Huser).
  - apply user_topic_length.
Qed.

(** Blocks 12000 to 13000 on a chain without logs, for one account. *)
Lemma user_query_adds_account_topic_witness :
  String.length
    ("0x" ++ zfill 64 (str_drop 2 "0x1234567890123456789012345678901234567890"))%string
  = 66%nat.
Proof.
  refine (proj2 (proj2 (user_query_adds_account_topic (H := toy_lib)
            EventIndexer.defaults (answer funded) (answer funded) 12000 13000
            "0x1234567890123456789012345678901234567890"
            (<["redemptions" := []]> (<["deposits" := []]>
               (<["triples_created" := []]> (<["atoms_created" := []]> ∅))))
            (<["redemptions" := []]> (<["deposits" := []]>
               (<["atoms_created" := []]> ∅)))
            _ _)) _).
  - vm_compute. reflexivity.
  - vm_compute. reflexivity.
  - vm_compute. reflexivity.
Defined.

(** * Further properties of the scripts *)

(** Point at an entry of an explicit list; another one if the rest of the
    goal asks for it. *)
Ltac pick_any := (left; reflexivity) + (right; pick_any).

Lemma lookup_cons_inv {X : Type} (a : X) (l : list X) (i : nat) (x : X) :
  (a :: l) !! i = Some x ->
  (i = O /\ a = x) \/ (exists j : nat, i = S j /\ l !! j = Some x).
Proof.
  destruct i as [|j]; simpl; intros Hi.
  - left. split; [reflexivity | congruence].
  - right. exists j. split; [reflexivity | exact Hi].
Qed.

(** Walk an index through an explicit list. *)
Ltac walk H :=
  repeat (apply lookup_cons_inv in H;
          destruct H as [[-> H] | (? & -> & H)];
          [ first [ discriminate H
                  | simplify_eq H; clear H; intros; subst;
                    eexists; split_and!; reflexivity ]
          | ]);
  discriminate H.

Ltac positions :=
  unfold fresh_parameters, built_signed_sent; cbn;
  repeat split;
  (let Hi := fresh "Hi" in intros ? ? ? Hi; walk Hi).

(** ** create-atom.py, step by step *)

Section CreateAtomSteps.
Context `{Web3Lib} (cfg : CreateAtom.Config) (h : Handler).

Let tr := trace_of (CreateAtom.main cfg) h.
Let out := outcome_of (CreateAtom.main cfg) h.

(** X1. When the node is not connected, [create-atom.py] raises "Failed to
    connect to Intuition network" with the connectivity check as its only
    request: the key is not even read. *)
Theorem atom_not_connected :
  head (calls tr) = Some (IsConnected, VBool false) ->
  out = inl (Exception "Failed to connect to Intuition network") /\
  calls tr = [(IsConnected, VBool false)].
Proof.
  subst tr out. by_wp. unfold CreateAtom.main. wp_exec; leaf.
Qed.

(** X2. The balance check of [create-atom.py], for a total of deposit and
    atom cost that [Web3.from_wei] formats (one in the range of a [uint256];
    outside of it the print of the total raises before the check): a WTRUST
    balance below the total raises "Insufficient WTRUST balance" after four
    requests and before any transaction; a balance equal to it or above
    passes, and the atom id is computed next. *)
Theorem atom_balance_check c a balance c' cost :
  In (Call c (balanceOf a), VInt balance) (calls tr) ->
  In (Call c' getAtomCost, VInt cost) (calls tr) ->
  0 <= CreateAtom.DEPOSIT_AMOUNT cfg + cost <= 2 ^ 256 - 1 ->
  (balance < CreateAtom.DEPOSIT_AMOUNT cfg + cost ->
   out = inl (Exception
     ("Insufficient WTRUST balance. Need "
      ++ from_wei_ether (CreateAtom.DEPOSIT_AMOUNT cfg + cost)
      ++ " but have " ++ from_wei_ether balance)%string) /\
   length (calls tr) = 4%nat /\
   transactions tr = []) /\
  (CreateAtom.DEPOSIT_AMOUNT cfg + cost <= balance ->
   exists v,
     In (Call (to_checksum_address (CreateAtom.MULTIVAULT_ADDRESS cfg))
           (calculateAtomId (CreateAtom.ATOM_DATA cfg)), v) (calls tr)).
Proof.
  subst tr out. revert c a balance c' cost.
  by_wp. unfold CreateAtom.main. wp_exec; leaf.
  all: eexists; pick.
Qed.

(** X3. Atom data that is not UTF-8 is found out only when it is printed, in
    step 6: the atom is never created (every transaction of the run is an
    approval), though the approval may already have been sent, and the run
    returns only on the path where the atom already exists. *)
Theorem atom_data_not_utf8 e :
  decode_utf8 (CreateAtom.ATOM_DATA cfg) = inl e ->
  (forall tx, In tx (transactions tr) -> is_approval tx = true) /\
  (out = inr tt -> transactions tr = []).
Proof.
  intros Hdecode. subst tr out.
  by_wp. unfold CreateAtom.main. wp_exec; leaf; congruence.
Qed.

(** X4. Once the events of the receipt have been read (none, or a first one
    whose data decodes), [create-atom.py] returns after printing its success
    banner, whatever the status of the receipt, and the creation has been
    submitted. *)
Theorem atom_success_banner receipt events :
  In (ProcessReceipt receipt, VEvents events) (calls tr) ->
  match events with
  | [] => True
  | event :: _ => exists s, decode_utf8 (atomData event) = inr s
  end ->
  out = inr tt /\
  In "✓ Atom creation successful!" (stdout tr) /\
  exists tx, In tx (submitted tr) /\ is_approval tx = false.
Proof.
  subst tr out. revert receipt events.
  by_wp. unfold CreateAtom.main. wp_exec; leaf; try congruence; try pick.
  all: eexists; split; [pick_any |]; reflexivity.
Qed.

(** X5. An [AtomCreated] event whose data is not UTF-8 ends
    [create-atom.py] with the decoding error, after the creation has been
    submitted. *)
Theorem atom_event_not_utf8 receipt event rest e :
  In (ProcessReceipt receipt, VEvents (event :: rest)) (calls tr) ->
  decode_utf8 (atomData event) = inl e ->
  out = inl e /\
  exists tx, In tx (submitted tr) /\ is_approval tx = false.
Proof.
  subst tr out. revert receipt event rest e.
  by_wp. unfold CreateAtom.main. wp_exec; leaf; try congruence.
  all: eexists; split; [pick_any |]; reflexivity.
Qed.

End CreateAtomSteps.

Lemma atom_not_connected_witness :
  let offline :=
    mkChain false (fun _ => false) 0 0 0 0 0 (fun x => (x, x))
      (mkUserInfo 0 0 0 0 0 0) 0 (fun _ => []) in
  outcome_of (CreateAtom.main (H := toy_lib) (CreateAtom.defaults "a11ce"))
    (answer offline)
  = inl (Exception "Failed to connect to Intuition network") /\
  calls (trace_of (CreateAtom.main (H := toy_lib) (CreateAtom.defaults "a11ce"))
           (answer offline))
  = [(IsConnected, VBool false)].
Proof.
  intros offline.
  refine (atom_not_connected (H := toy_lib) (CreateAtom.defaults "a11ce")
            (answer offline) _).
  reflexivity.
Defined.

Lemma atom_balance_check_witness :
  let poor :=
    mkChain true (fun _ => false) 5 0 7 0 0 (fun x => (x, x))
      (mkUserInfo 0 0 0 0 0 0) 0 (fun _ => []) in
  outcome_of (CreateAtom.main (H := toy_lib) (CreateAtom.defaults "a11ce"))
    (answer poor)
  = inl (Exception "Insufficient WTRUST balance. Need ? but have ?") /\
  length (calls (trace_of (CreateAtom.main (H := toy_lib)
                             (CreateAtom.defaults "a11ce")) (answer poor)))
  = 4%nat /\
  transactions (trace_of (CreateAtom.main (H := toy_lib)
                            (CreateAtom.defaults "a11ce")) (answer poor))
  = [].
Proof.
  intros poor.
  refine (proj1 (atom_balance_check (H := toy_lib) (CreateAtom.defaults "a11ce")
                   (answer poor)
                   "0x81cFb09cb44f7184Ad934C09F82000701A4bF672" "0xa11ce" 7
                   "0x6E35cF57A41fA15eA0EaE9C33e751b01A784Fe7e" 5 _ _ _) _).
  - found.
  - found.
  - vm_compute. split; discriminate.
  - vm_compute. reflexivity.
Defined.

Lemma atom_data_not_utf8_witness :
  let cfg :=
    CreateAtom.mkConfig "0x6E35cF57A41fA15eA0EaE9C33e751b01A784Fe7e"
      "0x81cFb09cb44f7184Ad934C09F82000701A4bF672" "a11ce"
      (String (ascii_of_nat 255) "") 10 in
  let tr := trace_of (CreateAtom.main (H := ascii_lib) cfg) (answer funded) in
  transactions tr <> [] /\ forallb is_approval (transactions tr) = true.
Proof.
  intros cfg tr. split; [vm_compute; discriminate |].
  apply forallb_forall. intros tx Hin.
  refine (proj1 (atom_data_not_utf8 (H := ascii_lib) cfg (answer funded)
                   UnicodeDecodeError _) tx Hin).
  reflexivity.
Defined.

Lemma atom_success_banner_witness :
  let h := reverted (answer funded) in
  let tr := trace_of (CreateAtom.main (H := toy_lib) (CreateAtom.defaults "a11ce")) h in
  outcome_of (CreateAtom.main (H := toy_lib) (CreateAtom.defaults "a11ce")) h
  = inr tt /\
  In "✓ Atom creation successful!" (stdout tr) /\
  exists tx, In tx (submitted tr) /\ is_approval tx = false.
Proof.
  intros h tr.
  refine (atom_success_banner (H := toy_lib) (CreateAtom.defaults "a11ce") h
            (mkReceipt 12345 21000 0) [] _ _).
  - found.
  - exact I.
Defined.

Lemma atom_event_not_utf8_witness :
  let h :=
    with_events [mkAtomCreated "0xa11ce" "atom" (String (ascii_of_nat 255) "") "0xwallet"]
      (answer funded) in
  outcome_of (CreateAtom.main (H := ascii_lib) (CreateAtom.defaults "a11ce")) h
  = inl UnicodeDecodeError /\
  exists tx,
    In tx (submitted (trace_of (CreateAtom.main (H := ascii_lib)
                                  (CreateAtom.defaults "a11ce")) h)) /\
    is_approval tx = false.
Proof.
  intros h.
  refine (atom_event_not_utf8 (H := ascii_lib) (CreateAtom.defaults "a11ce") h
            (mkReceipt 12347 21000 1)
            (mkAtomCreated "0xa11ce" "atom" (String (ascii_of_nat 255) "") "0xwallet")
            [] UnicodeDecodeError _ _).
  - found.
  - reflexivity.
Defined.

(** ** All the scripts *)

(** X6. In the five scripts every transaction goes through the same steps
    without anything in between: the nonce of the sender and the gas price
    are read, the transaction is built with both as answered, signed, and
    sent. *)
Theorem transaction_lifecycle `{Web3Lib} (h : Handler) :
  let lifecycle (main : Prog unit) :=
    fresh_parameters (calls (trace_of main h)) /\
    built_signed_sent (calls (trace_of main h)) in
  (forall cfg, lifecycle (CreateAtom.main cfg)) /\
  (forall cfg, lifecycle (CreateTriple.main cfg)) /\
  (forall cfg, lifecycle (DepositVault.main cfg)) /\
  (forall cfg, lifecycle (RedeemShares.main cfg)) /\
  (forall cfg, lifecycle (ClaimRewards.main cfg)).
Proof.
  cbv zeta. split_and!; intros cfg; by_wp.
  - unfold CreateAtom.main. wp_exec; positions.
  - unfold CreateTriple.main. wp_exec; positions.
  - unfold DepositVault.main. wp_exec; positions.
  - unfold RedeemShares.main. wp_exec; positions.
  - unfold ClaimRewards.main. wp_exec; positions.
Qed.

(** X7. Every transaction of the four scripts that spend is sent from the
    account of the configured key, an approval to the WTRUST contract and
    anything else to the MultiVault. *)
Theorem transactions_from_the_account `{Web3Lib} (h : Handler) :
  (forall (cfg : CreateAtom.Config) tx,
      In tx (transactions (trace_of (CreateAtom.main cfg) h)) ->
      from_key (CreateAtom.PRIVATE_KEY cfg) = inr (tx_from tx) /\
      tx_to tx = to_checksum_address
                   (if is_approval tx then CreateAtom.WTRUST_ADDRESS cfg
                    else CreateAtom.MULTIVAULT_ADDRESS cfg)) /\
  (forall (cfg : CreateTriple.Config) tx,
      In tx (transactions (trace_of (CreateTriple.main cfg) h)) ->
      from_key (CreateTriple.PRIVATE_KEY cfg) = inr (tx_from tx) /\
      tx_to tx = to_checksum_address
                   (if is_approval tx then CreateTriple.WTRUST_ADDRESS cfg
                    else CreateTriple.MULTIVAULT_ADDRESS cfg)) /\
  (forall (cfg : DepositVault.Config) tx,
      In tx (transactions (trace_of (DepositVault.main cfg) h)) ->
      from_key (DepositVault.PRIVATE_KEY cfg) = inr (tx_from tx) /\
      tx_to tx = to_checksum_address
                   (if is_approval tx then DepositVault.WTRUST_ADDRESS cfg
                    else DepositVault.MULTIVAULT_ADDRESS cfg)) /\
  (forall (cfg : RedeemShares.Config) tx,
      In tx (transactions (trace_of (RedeemShares.main cfg) h)) ->
      from_key (RedeemShares.PRIVATE_KEY cfg) = inr (tx_from tx) /\
      tx_to tx = to_checksum_address (RedeemShares.MULTIVAULT_ADDRESS cfg)).
Proof.
  split_and!; intros cfg; by_wp.
  - unfold CreateAtom.main. wp_exec; leaf.
  - unfold CreateTriple.main. wp_exec; leaf.
  - unfold DepositVault.main. wp_exec; leaf.
  - unfold RedeemShares.main. wp_exec; leaf.
Qed.

(** X8. The receipt of every transaction that was sent is waited for, the
    approvals of [create-triple.py] and [deposit-vault.py] apart. *)
Theorem spend_receipt_awaited `{Web3Lib} (h : Handler) :
  (forall (cfg : CreateAtom.Config) tx tx_hash,
      let tr := trace_of (CreateAtom.main cfg) h in
      In (SendRawTransaction tx, VStr tx_hash) (calls tr) -> In tx_hash (awaited tr)) /\
  (forall (cfg : CreateTriple.Config) tx tx_hash,
      let tr := trace_of (CreateTriple.main cfg) h in
      In (SendRawTransaction tx, VStr tx_hash) (calls tr) -> is_approval tx = false ->
      In tx_hash (awaited tr)) /\
  (forall (cfg : DepositVault.Config) tx tx_hash,
      let tr := trace_of (DepositVault.main cfg) h in
      In (SendRawTransaction tx, VStr tx_hash) (calls tr) -> is_approval tx = false ->
      In tx_hash (awaited tr)) /\
  (forall (cfg : RedeemShares.Config) tx tx_hash,
      let tr := trace_of (RedeemShares.main cfg) h in
      In (SendRawTransaction tx, VStr tx_hash) (calls tr) -> In tx_hash (awaited tr)) /\
  (forall (cfg : ClaimRewards.Config) tx tx_hash,
      let tr := trace_of (ClaimRewards.main cfg) h in
      In (SendRawTransaction tx, VStr tx_hash) (calls tr) -> In tx_hash (awaited tr)).
Proof.
  split_and!; intros cfg; cbv zeta; by_wp.
  - unfold CreateAtom.main. wp_exec; leaf; pick.
  - unfold CreateTriple.main. wp_exec; leaf; pick.
  - unfold DepositVault.main. wp_exec; leaf; pick.
  - unfold RedeemShares.main. wp_exec; leaf; pick.
  - unfold ClaimRewards.main. wp_exec; leaf; pick.
Qed.

(** X9. A run sends at most two transactions: at most one approval, and
    after it at most one spend; a redemption and a claim send no approval,
    and [create-triple.py] and [deposit-vault.py] never spend without having
    sent their approval. *)
Theorem one_approval_one_spend `{Web3Lib} (h : Handler) :
  (forall cfg : CreateAtom.Config,
      In (map is_approval (submitted (trace_of (CreateAtom.main cfg) h)))
        [[]; [true]; [false]; [true; false]]) /\
  (forall cfg : CreateTriple.Config,
      In (map is_approval (submitted (trace_of (CreateTriple.main cfg) h)))
        [[]; [true]; [true; false]]) /\
  (forall cfg : DepositVault.Config,
      In (map is_approval (submitted (trace_of (DepositVault.main cfg) h)))
        [[]; [true]; [true; false]]) /\
  (forall cfg : RedeemShares.Config,
      In (map is_approval (submitted (trace_of (RedeemShares.main cfg) h)))
        [[]; [false]]) /\
  (forall cfg : ClaimRewards.Config,
      In (map is_approval (submitted (trace_of (ClaimRewards.main cfg) h)))
        [[]; [false]]).
Proof.
  split_and!; intros cfg; by_wp.
  - unfold CreateAtom.main. wp_exec; pick.
  - unfold CreateTriple.main. wp_exec; pick.
  - unfold DepositVault.main. wp_exec; pick.
  - unfold RedeemShares.main. wp_exec; pick.
  - unfold ClaimRewards.main. wp_exec; pick.
Qed.

(** X10. [claim-rewards.py] stops reading where it stops claiming: with no
    bonded balance the run consists of three reads (the two epochs and the
    user info), with no claimable rewards of these and the read of the
    rewards; the APY is not read. *)
Theorem claim_reads_stop_at_zero `{Web3Lib} (cfg : ClaimRewards.Config) (h : Handler) :
  let tr := trace_of (ClaimRewards.main cfg) h in
  let trust_bonding := to_checksum_address (ClaimRewards.TRUST_BONDING_ADDRESS cfg) in
  (forall c a info,
      In (Call c (getUserInfo a), VUserInfo info) (calls tr) ->
      bondedBalance info = 0 ->
      exists current previous,
        calls tr = [ (Call trust_bonding currentEpoch, VInt current);
                     (Call trust_bonding previousEpoch, VInt previous);
                     (Call trust_bonding (getUserInfo a), VUserInfo info) ]) /\
  (forall c a,
      In (Call c (getUserCurrentClaimableRewards a), VInt 0) (calls tr) ->
      exists current previous info,
        calls tr = [ (Call trust_bonding currentEpoch, VInt current);
                     (Call trust_bonding previousEpoch, VInt previous);
                     (Call trust_bonding (getUserInfo a), VUserInfo info);
                     (Call trust_bonding (getUserCurrentClaimableRewards a), VInt 0) ]).
Proof.
  cbv zeta. by_wp. unfold ClaimRewards.main. wp_exec; leaf.
  all: repeat eexists.
Qed.

(** X11. [create-triple.py] and [deposit-vault.py] never read the WTRUST
    balance of the account: unlike [create-atom.py] they spend without
    checking it. *)
Theorem spend_without_balance_check `{Web3Lib} (h : Handler) :
  (forall (cfg : CreateTriple.Config) c a v,
      ~ In (Call c (balanceOf a), v) (calls (trace_of (CreateTriple.main cfg) h))) /\
  (forall (cfg : DepositVault.Config) c a v,
      ~ In (Call c (balanceOf a), v) (calls (trace_of (DepositVault.main cfg) h))).
Proof.
  split; intros cfg; by_wp.
  - unfold CreateTriple.main. wp_exec; leaf.
  - unfold DepositVault.main. wp_exec; leaf.
Qed.

(** X12. A private key the library rejects ends a script with the library's
    exception before anything is asked of the node; [create-atom.py] alone
    has checked the connection by then. *)
Theorem bad_key_stops_before_the_chain `{Web3Lib} (h : Handler) (e : Exn) :
  (forall cfg : CreateAtom.Config,
      from_key (CreateAtom.PRIVATE_KEY cfg) = inl e ->
      (length (calls (trace_of (CreateAtom.main cfg) h)) <= 1)%nat /\
      outcome_of (CreateAtom.main cfg) h <> inr tt) /\
  (forall cfg : CreateTriple.Config,
      from_key (CreateTriple.PRIVATE_KEY cfg) = inl e ->
      calls (trace_of (CreateTriple.main cfg) h) = [] /\
      outcome_of (CreateTriple.main cfg) h = inl e) /\
  (forall cfg : DepositVault.Config,
      from_key (DepositVault.PRIVATE_KEY cfg) = inl e ->
      calls (trace_of (DepositVault.main cfg) h) = [] /\
      outcome_of (DepositVault.main cfg) h = inl e) /\
  (forall cfg : RedeemShares.Config,
      from_key (RedeemShares.PRIVATE_KEY cfg) = inl e ->
      calls (trace_of (RedeemShares.main cfg) h) = [] /\
      outcome_of (RedeemShares.main cfg) h = inl e) /\
  (forall cfg : ClaimRewards.Config,
      from_key (ClaimRewards.PRIVATE_KEY cfg) = inl e ->
      calls (trace_of (ClaimRewards.main cfg) h) = [] /\
      outcome_of (ClaimRewards.main cfg) h = inl e).
Proof.
  split_and!; intros cfg Hkey; by_wp.
  - unfold CreateAtom.main. wp_exec; leaf; congruence.
  - unfold CreateTriple.main. wp_exec; leaf; congruence.
  - unfold DepositVault.main. wp_exec; leaf; congruence.
  - unfold RedeemShares.main. wp_exec; leaf; congruence.
  - unfold ClaimRewards.main. wp_exec; leaf; congruence.
Qed.

(** X13. [deposit-vault.py] on a term that is not created raises "Vault does
    not exist" after this one read, before any preview or transaction. *)
Theorem deposit_missing_vault `{Web3Lib} (cfg : DepositVault.Config) (h : Handler)
    c id :
  let tr := trace_of (DepositVault.main cfg) h in
  head (calls tr) = Some (Call c (isTermCreated id), VBool false) ->
  outcome_of (DepositVault.main cfg) h = inl (Exception "Vault does not exist") /\
  calls tr = [(Call (to_checksum_address (DepositVault.MULTIVAULT_ADDRESS cfg))
                 (isTermCreated (DepositVault.TERM_ID cfg)), VBool false)].
Proof.
  cbv zeta. revert c id. by_wp. unfold DepositVault.main. wp_exec; leaf.
Qed.

(** X14. The creating transaction carries the configured deposit, not the
    approved total of deposit and cost, and no ether: [createAtoms] with the
    one data and the one amount, [createTriples] with the three ids and the
    one amount. *)
Theorem creation_carries_deposit `{Web3Lib} (h : Handler) :
  (forall (cfg : CreateAtom.Config) tx,
      In tx (transactions (trace_of (CreateAtom.main cfg) h)) ->
      is_approval tx = false ->
      tx_call tx = createAtoms [CreateAtom.ATOM_DATA cfg] [CreateAtom.DEPOSIT_AMOUNT cfg] /\
      tx_value tx = Some 0 /\ tx_gas tx = 400000) /\
  (forall (cfg : CreateTriple.Config) tx,
      In tx (transactions (trace_of (CreateTriple.main cfg) h)) ->
      is_approval tx = false ->
      tx_call tx = createTriples [CreateTriple.SUBJECT_ID cfg]
                     [CreateTriple.PREDICATE_ID cfg] [CreateTriple.OBJECT_ID cfg]
                     [CreateTriple.DEPOSIT_AMOUNT cfg] /\
      tx_value tx = Some 0 /\ tx_gas tx = 500000).
Proof.
  split; intros cfg; by_wp.
  - unfold CreateAtom.main. wp_exec; leaf.
  - unfold CreateTriple.main. wp_exec; leaf.
Qed.

(** X15. A deposit and a redemption name the sending account itself as the
    receiver, for the configured term and curve; the deposit transaction
    carries no amount of its own (the assets are the approved WTRUST) and a
    value of 0. *)
Theorem spend_for_own_account `{Web3Lib} (h : Handler) :
  (forall (cfg : DepositVault.Config) tx,
      In tx (transactions (trace_of (DepositVault.main cfg) h)) ->
      is_approval tx = false ->
      exists min_shares,
        tx_call tx = deposit (tx_from tx) (DepositVault.TERM_ID cfg)
                       (DepositVault.CURVE_ID cfg) min_shares /\
        tx_value tx = Some 0) /\
  (forall (cfg : RedeemShares.Config) tx,
      In tx (transactions (trace_of (RedeemShares.main cfg) h)) ->
      exists shares min_assets,
        tx_call tx = redeem (tx_from tx) (RedeemShares.TERM_ID cfg)
                       (RedeemShares.CURVE_ID cfg) shares min_assets).
Proof.
  split; intros cfg; by_wp.
  - unfold DepositVault.main. wp_exec; leaf.
    all: eexists; split; reflexivity.
  - unfold RedeemShares.main. wp_exec; leaf.
    all: do 2 eexists; reflexivity.
Qed.

Lemma transactions_from_the_account_witness :
  let tr := trace_of (DepositVault.main (H := toy_lib) (DepositVault.defaults "a11ce"))
              (answer funded) in
  transactions tr <> [] /\
  List.Forall (fun tx => tx_from tx = "0xa11ce") (transactions tr).
Proof.
  intros tr. split; [vm_compute; discriminate |].
  apply List.Forall_forall. intros tx Hin.
  destruct (proj1 (proj2 (proj2 (transactions_from_the_account (H := toy_lib)
                                   (answer funded))))
              (DepositVault.defaults "a11ce") tx Hin) as [Hkey _].
  cbn in Hkey. injection Hkey as Hkey. symmetry. exact Hkey.
Defined.

Lemma spend_receipt_awaited_witness :
  In "0x00" (awaited (trace_of (CreateTriple.main (H := toy_lib)
                                  (CreateTriple.defaults "a11ce")) (answer funded))).
Proof.
  refine (proj1 (proj2 (spend_receipt_awaited (H := toy_lib) (answer funded)))
            (CreateTriple.defaults "a11ce") _ "0x00" _ _).
  - lazy. pick_any.
  - reflexivity.
Defined.

Lemma claim_reads_stop_at_zero_witness :
  let nothing_bonded :=
    mkChain true (fun _ => false) 0 0 0 0 0 (fun x => (x, x))
      (mkUserInfo 0 7 9 0 0 0) 7 (fun _ => []) in
  length (calls (trace_of (ClaimRewards.main (H := toy_lib)
                             (ClaimRewards.defaults "a11ce"))
                   (answer nothing_bonded))) = 3%nat.
Proof.
  intros nothing_bonded.
  destruct (proj1 (claim_reads_stop_at_zero (H := toy_lib)
                     (ClaimRewards.defaults "a11ce") (answer nothing_bonded))
              "0x635bBD1367B66E7B16a21D6E5A63C812fFC00617" "0xa11ce"
              (mkUserInfo 0 7 9 0 0 0)) as (current & previous & Hcalls).
  - found.
  - reflexivity.
  - rewrite Hcalls. reflexivity.
Defined.

Lemma bad_key_stops_before_the_chain_witness :
  calls (trace_of (DepositVault.main (H := toy_lib) (DepositVault.defaults ""))
           (answer funded)) = [] /\
  outcome_of (DepositVault.main (H := toy_lib) (DepositVault.defaults ""))
    (answer funded)
  = inl {| exn_class := "ValueError"; exn_str := "invalid private key" |}.
Proof.
  refine (proj1 (proj2 (proj2 (bad_key_stops_before_the_chain (H := toy_lib)
                                 (answer funded) _)))
            (DepositVault.defaults "") _).
  reflexivity.
Defined.

Lemma deposit_missing_vault_witness :
  let empty :=
    mkChain true (fun _ => false) 0 0 0 0 0 (fun x => (x, x))
      (mkUserInfo 0 0 0 0 0 0) 0 (fun _ => []) in
  outcome_of (DepositVault.main (H := toy_lib) (DepositVault.defaults "a11ce"))
    (answer empty)
  = inl (Exception "Vault does not exist") /\
  length (calls (trace_of (DepositVault.main (H := toy_lib)
                             (DepositVault.defaults "a11ce")) (answer empty)))
  = 1%nat.
Proof.
  intros empty.
  destruct (deposit_missing_vault (H := toy_lib) (DepositVault.defaults "a11ce")
              (answer empty) "0x6E35cF57A41fA15eA0EaE9C33e751b01A784Fe7e"
              (DepositVault.TERM_ID (DepositVault.defaults "a11ce")))
    as [Hout Hcalls].
  - reflexivity.
  - split; [exact Hout | rewrite Hcalls; reflexivity].
Defined.

Lemma creation_carries_deposit_witness :
  let tr := trace_of (CreateAtom.main (H := toy_lib) (CreateAtom.defaults "a11ce"))
              (answer funded) in
  existsb (fun tx => negb (is_approval tx)) (transactions tr) = true /\
  List.Forall (fun tx => is_approval tx = false -> tx_gas tx = 400000)
    (transactions tr).
Proof.
  intros tr. split; [vm_compute; reflexivity |].
  apply List.Forall_forall. intros tx Hin Hspend.
  exact (proj2 (proj2 (proj1 (creation_carries_deposit (H := toy_lib) (answer funded))
                         (CreateAtom.defaults "a11ce") tx Hin Hspend))).
Defined.

Lemma spend_for_own_account_witness :
  let tr := trace_of (RedeemShares.main (H := toy_lib) (RedeemShares.defaults "a11ce"))
              (answer funded) in
  transactions tr <> [] /\
  List.Forall
    (fun tx => exists shares min_assets,
                 tx_call tx
                 = redeem (tx_from tx)
                     (RedeemShares.TERM_ID (RedeemShares.defaults "a11ce"))
                     (RedeemShares.CURVE_ID (RedeemShares.defaults "a11ce"))
                     shares min_assets)
    (transactions tr).
Proof.
  intros tr. split; [vm_compute; discriminate |].
  apply List.Forall_forall. intros tx Hin.
  exact (proj2 (spend_for_own_account (H := toy_lib) (answer funded))
           (RedeemShares.defaults "a11ce") tx Hin).
Defined.

(** * Further properties of the indexer *)

(** ** Sessions *)

Lemma perform_and_then {A B : Type} (p : Session A) (f : A -> Session B)
    (w : World) (past : list Step) :
  perform (and_then p f) w past =
  match perform p w past with
  | (tr, Returned a) => perform (f a) w tr
  | (tr, Raised e) => (tr, Raised e)
  | (tr, Interrupt) => (tr, Interrupt)
  | (tr, Running) => (tr, Running)
  end.
Proof.
  revert past. induction p as [a | [e|] | line k IH | a k IH |]; intros past;
    simpl; auto.
Qed.

Lemma perform_except {A : Type} (body handler : Session A) (w : World)
    (past : list Step) :
  perform (except_keyboard_interrupt body handler) w past =
  match perform body w past with
  | (tr, Interrupt) => perform handler w tr
  | result => result
  end.
Proof.
  revert past. induction body as [a | [e|] | line k IH | a k IH |]; intros past;
    simpl; auto.
Qed.

Lemma said_app (tr1 tr2 : list Step) : said (tr1 ++ tr2) = said tr1 ++ said tr2.
Proof. apply omap_app. Qed.

Lemma asked_app (tr1 tr2 : list Step) : asked (tr1 ++ tr2) = asked tr1 ++ asked tr2.
Proof. apply omap_app. Qed.

Lemma polled_app (tr1 tr2 : list Step) : polled (tr1 ++ tr2) = polled tr1 ++ polled tr2.
Proof. apply flat_map_app. Qed.

Lemma said_Said (lines : list string) : said (map Said lines) = lines.
Proof. induction lines as [|l lines IH]; simpl; [reflexivity | now rewrite IH]. Qed.

Lemma asked_Said (lines : list string) : asked (map Said lines) = [].
Proof. induction lines as [|l lines IH]; simpl; [reflexivity | exact IH]. Qed.

Lemma polled_Said (lines : list string) : polled (map Said lines) = [].
Proof. induction lines as [|l lines IH]; simpl; [reflexivity | exact IH]. Qed.

Section MonitorFacts.
Context `{Web3Lib} (cfg : EventMonitor.Config) (w : World).

(** Handling one log prints its lines and returns, or raises on a log
    without topics. *)
Lemma perform_handle (event : LogEntry) (past : list Step) :
  perform (EventMonitor.handle event) w past =
  match log_topics event with
  | [] => (past, Raised EventMonitor.IndexError)
  | topic :: _ =>
      (past ++ map Said (EventMonitor.described event topic ++ [""]), Returned tt)
  end.
Proof.
  unfold EventMonitor.handle, EventMonitor.described, EventMonitor.marker.
  destruct (log_topics event) as [|topic topics]; [reflexivity |].
  repeat (match goal with |- context [if ?b then _ else _] => destruct b end);
    simpl; rewrite <- ?app_assoc; reflexivity.
Qed.

(** Handling a batch prints what [shown] says, and raises at the first log
    without topics. *)
Lemma perform_each_handle (entries : list LogEntry) (past : list Step) :
  perform (each entries EventMonitor.handle) w past =
  (past ++ map Said (EventMonitor.shown entries),
   if existsb bare entries then Raised EventMonitor.IndexError else Returned tt).
Proof.
  revert past. induction entries as [|event entries IH]; intros past; simpl.
  - now rewrite app_nil_r.
  - rewrite perform_and_then, perform_handle. unfold bare at 1.
    destruct (log_topics event) as [|topic topics]; simpl.
    + now rewrite app_nil_r.
    + rewrite IH. rewrite <- app_assoc, <- map_app, <- app_assoc. reflexivity.
Qed.

End MonitorFacts.

Section MonitorLoop.
Context `{Web3Lib} (cfg : EventMonitor.Config) (w : World).

Lemma shown_app (l1 l2 : list LogEntry) :
  existsb bare l1 = false ->
  EventMonitor.shown (l1 ++ l2) = EventMonitor.shown l1 ++ EventMonitor.shown l2.
Proof.
  induction l1 as [|event l1 IH]; simpl; [reflexivity |].
  unfold bare at 1. destruct (log_topics event) as [|topic topics]; simpl;
    [discriminate |].
  intros Hrest. rewrite (IH Hrest), <- app_assoc. reflexivity.
Qed.

Lemma forallb_removelast_cons {X : Type} (f : X -> bool) (x : X) (l : list X) :
  f x = true ->
  forallb f (removelast l) = true ->
  forallb f (removelast (x :: l)) = true.
Proof.
  destruct l as [|y l]; [reflexivity |].
  change (removelast (x :: y :: l)) with (x :: removelast (y :: l)).
  intros Hx Hl. cbn [forallb]. rewrite Hx. exact Hl.
Qed.

(** One round of the loop. *)
Let round : Session unit :=
  (new_entries <- ask GetNewEntries ;;
   each new_entries EventMonitor.handle ;;
   ask (Sleep 2))%session.

(** A run of the polling loop, from any point. *)
Lemma loop_run (rounds : nat) (past : list Step) :
  exists ext out,
    perform (while_true rounds round) w past = (past ++ ext, out) /\
    said ext = EventMonitor.shown (polled ext) /\
    poll_and_sleep (map fst (asked ext)) = true /\
    forallb settled (removelast (asked ext)) = true /\
    match out with
    | Returned _ => False
    | Interrupt =>
        existsb bare (polled ext) = false /\
        exists a, last (asked ext) = Some (a, Interrupted) /\
                  (a = GetNewEntries \/ a = Sleep 2)
    | Raised e =>
        (existsb bare (polled ext) = false /\
         exists a, last (asked ext) = Some (a, Gave (VRaised e))) \/
        (e = EventMonitor.IndexError /\
         existsb bare (polled ext) = true /\
         exists entries,
           last (asked ext) = Some (GetNewEntries, Gave (VLogs entries)) /\
           existsb bare entries = true)
    | Running =>
        existsb bare (polled ext) = false /\
        (ext = [] \/ last (asked ext) = Some (Sleep 2, Gave VNone))
    end.
Proof.
  revert past. induction rounds as [|rounds IH]; intros past.
  - exists [], Running. simpl. rewrite app_nil_r. split_and!; auto.
  - change (while_true (S rounds) round)
      with (and_then round (fun _ => while_true rounds round)).
    rewrite perform_and_then.
    unfold round at 1. simpl.
    destruct (w past GetNewEntries) as [[e|]|entries] eqn:Hpoll; simpl.
    + eexists [_], _. split; [reflexivity |]. simpl. split_and!; eauto.
    + eexists [_], _. split; [reflexivity |]. simpl. split_and!; eauto.
    + rewrite perform_and_then, perform_each_handle.
      assert (Hround : forall tail : list Step,
                 said (Asked GetNewEntries (Gave (VLogs entries))
                         :: map Said (EventMonitor.shown entries) ++ tail)
                 = EventMonitor.shown entries ++ said tail /\
                 polled (Asked GetNewEntries (Gave (VLogs entries))
                           :: map Said (EventMonitor.shown entries) ++ tail)
                 = entries ++ polled tail /\
                 asked (Asked GetNewEntries (Gave (VLogs entries))
                          :: map Said (EventMonitor.shown entries) ++ tail)
                 = (GetNewEntries, Gave (VLogs entries)) :: asked tail).
      { intros tail. split_and!.
        - change (said (?x :: ?l)) with (said l).
          now rewrite said_app, said_Said.
        - change (polled (?x :: ?l)) with (entries ++ polled l).
          now rewrite polled_app, polled_Said.
        - change (asked (?x :: ?l)) with ((GetNewEntries, Gave (VLogs entries)) :: asked l).
          now rewrite asked_app, asked_Said. }
      destruct (existsb bare entries) eqn:Hbare.
      * exists (Asked GetNewEntries (Gave (VLogs entries))
                  :: map Said (EventMonitor.shown entries) ++ []),
               (Raised EventMonitor.IndexError).
        destruct (Hround []) as (-> & -> & ->). simpl.
        rewrite !app_nil_r, <- app_assoc. split_and!; eauto 10.
      * simpl.
        match goal with |- context [w ?p (Sleep 2)] =>
          destruct (w p (Sleep 2)) as [[e|]|[]] eqn:Hsleep end; simpl.
        -- exists (Asked GetNewEntries (Gave (VLogs entries))
                     :: map Said (EventMonitor.shown entries)
                     ++ [Asked (Sleep 2) (Gave (VRaised e))]),
                  (Raised e).
           destruct (Hround [Asked (Sleep 2) (Gave (VRaised e))]) as (-> & -> & ->).
           simpl. rewrite !app_nil_r, Hbare, <- !app_assoc.
           split_and!; eauto.
        -- exists (Asked GetNewEntries (Gave (VLogs entries))
                     :: map Said (EventMonitor.shown entries)
                     ++ [Asked (Sleep 2) Interrupted]),
                  Interrupt.
           destruct (Hround [Asked (Sleep 2) Interrupted]) as (-> & -> & ->).
           simpl. rewrite !app_nil_r, Hbare, <- !app_assoc.
           split_and!; eauto.
        -- match goal with |- context [perform _ w ?p] =>
             destruct (IH p) as (ext & out & Hrun & Hsaid & Hasks & Hwell & Hout) end.
           exists (Asked GetNewEntries (Gave (VLogs entries))
                     :: map Said (EventMonitor.shown entries)
                     ++ Asked (Sleep 2) (Gave VNone) :: ext),
                  out.
           destruct (Hround (Asked (Sleep 2) (Gave VNone) :: ext)) as (-> & -> & ->).
           rewrite Hrun. split_and!.
           ++ f_equal. rewrite <- !app_assoc. reflexivity.
           ++ change (said (Asked ?a ?r :: ext)) with (said ext).
              change (polled (Asked (Sleep 2) ?r :: ext)) with (polled ext).
              rewrite (shown_app _ _ Hbare), Hsaid. reflexivity.
           ++ exact Hasks.
           ++ change (asked (Asked ?a ?r :: ext)) with ((a, r) :: asked ext).
              now do 2 (apply forallb_removelast_cons; [reflexivity |]).
           ++ change (polled (Asked (Sleep 2) ?r :: ext)) with (polled ext).
              change (asked (Asked ?a ?r :: ext)) with ((a, r) :: asked ext).
              rewrite existsb_app, Hbare. simpl orb.
              rewrite !last_cons.
              destruct out as [[] | e | |]; [exact Hout | | |].
              ** destruct Hout as [(Hb & a & ->) | (-> & Hb & entries' & -> & Hb')];
                   [left | right]; eauto.
              ** destruct Hout as (Hb & a & -> & Ha). eauto.
              ** destruct Hout as (Hb & [-> | ->]); auto.
Qed.

(** A run of the monitor, from any point: what it prints, what it asks, and
    how it ends. *)
Lemma monitor_run (rounds : nat) (ws_url : string) (past : list Step) :
  let create := NewFilter (to_checksum_address (EventMonitor.MULTIVAULT_ADDRESS cfg)) in
  exists ext out,
    perform (EventMonitor.monitor_real_time_events cfg rounds ws_url) w past
      = (past ++ ext, out) /\
    said ext =
      [ "Connecting to WebSocket for real-time monitoring...";
        ("Press Ctrl+C to stop" ++ nl)%string ]
      ++ EventMonitor.shown (polled ext)
      ++ match out with
         | Returned _ => [(nl ++ "Stopping event monitor...")%string]
         | _ => []
         end /\
    (exists rest,
        map fst (asked ext) = create :: rest /\ poll_and_sleep rest = true) /\
    forallb settled (removelast (asked ext)) = true /\
    match out with
    | Returned _ =>
        existsb bare (polled ext) = false /\
        exists a, last (asked ext) = Some (a, Interrupted) /\
                  (a = GetNewEntries \/ a = Sleep 2)
    | Interrupt => asked ext = [(create, Interrupted)] /\ polled ext = []
    | Raised e =>
        (existsb bare (polled ext) = false /\
         exists a, last (asked ext) = Some (a, Gave (VRaised e))) \/
        (e = EventMonitor.IndexError /\
         existsb bare (polled ext) = true /\
         exists entries,
           last (asked ext) = Some (GetNewEntries, Gave (VLogs entries)) /\
           existsb bare entries = true)
    | Running =>
        existsb bare (polled ext) = false /\
        exists a, last (asked ext) = Some (a, Gave VNone)
    end.
Proof.
  intros create. unfold EventMonitor.monitor_real_time_events.
  set (loop := while_true rounds _). simpl. fold create.
  match goal with |- context [w ?p create] =>
    destruct (w p create) as [[e|]|[]] eqn:Hcreate end; simpl.
  - eexists [_; _; _], _. rewrite <- !app_assoc. split; [reflexivity |].
    simpl. split_and!; eauto.
  - eexists [_; _; _], _. rewrite <- !app_assoc. split; [reflexivity |].
    simpl. split_and!; eauto.
  - rewrite perform_except.
    match goal with |- context [perform loop w ?p] =>
      destruct (loop_run rounds p)
        as (ext & out & Hrun & Hsaid & Hasks & Hwell & Hout)
    end.
    subst loop. unfold round in Hrun. rewrite Hrun.
    assert (Hopening : forall (a b : string) (tail : list Step),
               said (Said a :: Said b :: Asked create (Gave VNone) :: tail)
               = a :: b :: said tail /\
               asked (Said a :: Said b :: Asked create (Gave VNone) :: tail)
               = (create, Gave VNone) :: asked tail /\
               polled (Said a :: Said b :: Asked create (Gave VNone) :: tail)
               = polled tail).
    { intros a b tail. split_and!; reflexivity. }
    destruct out as [[] | e | |]; [destruct Hout | | |].
    + eexists (_ :: _ :: _ :: ext), _. rewrite <- !app_assoc.
      split; [reflexivity |].
      destruct (Hopening "Connecting to WebSocket for real-time monitoring..."
                  ("Press Ctrl+C to stop" ++ nl)%string ext) as (-> & -> & ->).
      rewrite Hsaid, app_nil_r. split_and!; eauto.
      * now apply forallb_removelast_cons.
      * rewrite last_cons.
        destruct Hout as [(Hb & a & ->) | (-> & Hb & entries & -> & Hb')];
          eauto 10.
    + simpl perform.
      eexists (_ :: _ :: _ :: ext ++ [_]), _. rewrite <- !app_assoc.
      split; [reflexivity |].
      destruct (Hopening "Connecting to WebSocket for real-time monitoring..."
                  ("Press Ctrl+C to stop" ++ nl)%string
                  (ext ++ [Said (nl ++ "Stopping event monitor...")%string]))
        as (-> & -> & ->).
      rewrite said_app, polled_app, asked_app, Hsaid.
      change (said [Said ?l]) with [l].
      change (asked [Said ?l]) with (@nil (Ask * Answer)).
      change (polled [Said ?l]) with (@nil LogEntry).
      rewrite !app_nil_r.
      destruct Hout as (Hb & a & Hlast & Ha).
      split_and!; eauto.
      * now apply forallb_removelast_cons.
      * exists a. rewrite last_cons, Hlast. auto.
    + eexists (_ :: _ :: _ :: ext), _. rewrite <- !app_assoc.
      split; [reflexivity |].
      destruct (Hopening "Connecting to WebSocket for real-time monitoring..."
                  ("Press Ctrl+C to stop" ++ nl)%string ext) as (-> & -> & ->).
      rewrite Hsaid, app_nil_r. split_and!; eauto.
      * now apply forallb_removelast_cons.
      * tauto.
      * rewrite last_cons.
        destruct Hout as (Hb & [-> | ->]); eauto.
Qed.

End MonitorLoop.

(** ** Sessions, whatever the world answers *)

Lemma holds_perform {A : Type} (p : Session A) (Q : list Step -> Outcome A -> Prop)
    (w : World) (past : list Step) :
  holds p Q past -> Q (fst (perform p w past)) (snd (perform p w past)).
Proof.
  revert past. induction p as [a | [e|] | line k IH | a k IH |]; intros past Hp;
    simpl in *; auto.
Qed.

(** What holds of every trace that extends [past] holds of every session
    that starts there. *)
Lemma holds_extends {A : Type} (p : Session A) (Q : list Step -> Outcome A -> Prop)
    (past : list Step) :
  (forall ext out, Q (past ++ ext) out) -> holds p Q past.
Proof.
  revert past. induction p as [a | [e|] | line k IH | a k IH |]; intros past HQ;
    simpl; try (rewrite <- (app_nil_r past); apply HQ).
  - apply IH. intros ext out. rewrite <- app_assoc. apply HQ.
  - intros r. apply IH. intros ext out. rewrite <- app_assoc. apply HQ.
Qed.

(** ** The monitor *)

Lemma last_or_removelast {X : Type} (x : X) (l : list X) :
  In x l -> last l = Some x \/ In x (removelast l).
Proof.
  induction l as [|y l IH]; [intros [] |].
  destruct l as [|z l].
  - intros [-> | []]. now left.
  - change (removelast (y :: z :: l)) with (y :: removelast (z :: l)).
    rewrite last_cons_cons.
    intros [-> | Hin]; [right; now left |].
    destruct (IH Hin); [now left | right; now right].
Qed.

Section MonitorTheorems.
Context `{Web3Lib} (cfg : EventMonitor.Config) (w : World).
Context (rounds : nat) (ws_url : string).

Let tr := fst (perform (EventMonitor.monitor_real_time_events cfg rounds ws_url) w []).
Let out := snd (perform (EventMonitor.monitor_real_time_events cfg rounds ws_url) w []).
Let create := NewFilter (to_checksum_address (EventMonitor.MULTIVAULT_ADDRESS cfg)).

(** X16. What the monitor prints is fixed by the logs its polls returned:
    the two opening lines; then for every log the marker of its leading
    topic, its block number and its transaction hash (nothing of the three
    for a topic that is not one of the four) and an empty line, up to the
    first log without topics; and the closing line exactly when the monitor
    returns. *)
Theorem monitor_output :
  said tr =
    [ "Connecting to WebSocket for real-time monitoring...";
      ("Press Ctrl+C to stop" ++ nl)%string ]
    ++ EventMonitor.shown (polled tr)
    ++ match out with
       | Returned _ => [(nl ++ "Stopping event monitor...")%string]
       | _ => []
       end.
Proof.
  subst tr out.
  destruct (monitor_run cfg w rounds ws_url []) as (ext & o & -> & Hsaid & _).
  exact Hsaid.
Qed.

(** X17. A log without topics ends the monitor with an [IndexError], at the
    poll that returned it: no sleep follows and the closing line is not
    printed. *)
Theorem monitor_log_without_topics :
  existsb bare (polled tr) = true ->
  out = Raised EventMonitor.IndexError /\
  exists entries,
    last (asked tr) = Some (GetNewEntries, Gave (VLogs entries)) /\
    existsb bare entries = true.
Proof.
  subst tr out.
  destruct (monitor_run cfg w rounds ws_url [])
    as (ext & o & -> & _ & _ & _ & Hout).
  simpl in *. intros Hlogs.
  destruct o as [[] | e | |].
  - destruct Hout as (Hb & _). congruence.
  - destruct Hout as [(Hb & _) | (-> & _ & Hlast)]; [congruence | auto].
  - destruct Hout as (_ & Hp). rewrite Hp in Hlogs. discriminate.
  - destruct Hout as (Hb & _). congruence.
Qed.

(** X18. The monitor returns exactly when the interrupt arrives at a poll or
    at a sleep; an interrupt while the filter is created is not caught. *)
Theorem monitor_returns_on_interrupt :
  (out = Returned tt <->
   exists a, last (asked tr) = Some (a, Interrupted) /\
             (a = GetNewEntries \/ a = Sleep 2)) /\
  (out = Interrupt <-> asked tr = [(create, Interrupted)]).
Proof.
  subst tr out.
  destruct (monitor_run cfg w rounds ws_url [])
    as (ext & o & -> & _ & (rest & Hasks & _) & _ & Hout).
  simpl in *.
  destruct o as [[] | e | |]; (split; split); intros Hx;
    try discriminate Hx; try reflexivity; try tauto;
    repeat match goal with
           | H : _ /\ _ |- _ => destruct H
           | H : _ \/ _ |- _ => destruct H
           | H : ex _ |- _ => destruct H
           end; subst;
    try congruence;
    repeat match goal with
           | Heq : asked ext = _, Hl : last (asked ext) = _ |- _ =>
               rewrite Heq in Hl; simpl in Hl
           end;
    subst create; congruence.
Qed.

(** X19. The monitor creates one filter on the contract, then polls it and
    sleeps two seconds in turn. *)
Theorem monitor_polls_and_sleeps :
  exists rest,
    map fst (asked tr) = create :: rest /\ poll_and_sleep rest = true.
Proof.
  subst tr out.
  destruct (monitor_run cfg w rounds ws_url [])
    as (ext & o & -> & _ & Hasks & _).
  exact Hasks.
Qed.

(** X20. An exception raised by the filter, by a poll or by the sleep ends
    the monitor with that exception: nothing is retried. *)
Theorem monitor_error_ends_run (a : Ask) (e : Exn) :
  In (a, Gave (VRaised e)) (asked tr) ->
  out = Raised e /\ last (asked tr) = Some (a, Gave (VRaised e)).
Proof.
  subst tr out.
  destruct (monitor_run cfg w rounds ws_url [])
    as (ext & o & -> & _ & _ & Hwell & Hout).
  simpl in *. intros Hin.
  destruct (last_or_removelast _ _ Hin) as [Hlast | Hbefore].
  - split; [| exact Hlast].
    destruct o as [[] | e' | |].
    + destruct Hout as (_ & a' & Ha' & _). congruence.
    + destruct Hout as [(_ & a' & Ha') | (_ & _ & entries & Ha' & _)];
        congruence.
    + destruct Hout as (Ha' & _). rewrite Ha' in Hlast. discriminate.
    + destruct Hout as (_ & a' & Ha'). congruence.
  - rewrite forallb_forall in Hwell. apply Hwell in Hbefore. discriminate.
Qed.

(** X21. The loop has no exit of its own: as long as nothing raises, no
    interrupt arrives and every log has a topic, the monitor is still
    polling, however many rounds it is given. *)
Theorem monitor_runs_on :
  forallb settled (asked tr) = true ->
  existsb bare (polled tr) = false ->
  out = Running.
Proof.
  subst tr out.
  destruct (monitor_run cfg w rounds ws_url [])
    as (ext & o & -> & _ & _ & _ & Hout).
  simpl in *. intros Hanswers Hlogs.
  assert (Hlast : forall x, last (asked ext) = Some x -> settled x = true).
  { intros x Hl. rewrite forallb_forall in Hanswers. apply Hanswers.
    apply list_elem_of_In, last_Some_elem_of, Hl. }
  destruct o as [[] | e | |].
  - destruct Hout as (_ & a & Ha & _). apply Hlast in Ha. discriminate.
  - destruct Hout as [(_ & a & Ha) | (_ & Hb & _)]; [| congruence].
    apply Hlast in Ha. discriminate.
  - destruct Hout as (Ha & _). rewrite Ha in Hlast.
    specialize (Hlast _ eq_refl). discriminate.
  - reflexivity.
Qed.

End MonitorTheorems.

(** ** The indexer's [main] *)

Ltac by_holds :=
  match goal with |- context [perform ?p ?w ?past] =>
    pattern (fst (perform p w past)), (snd (perform p w past));
    apply (holds_perform p _ w past)
  end.

Ltac session_step :=
  match goal with
  | |- forall r : Stop + _, _ =>
      let r := fresh "r" in intros r; destruct r as [[?|]|?]
  | |- context [if String.eqb ?a ?b then _ else _] =>
      destruct (String.eqb a b) eqn:?
  | |- context [match _ !! _ with _ => _ end] =>
      repeat (rewrite lookup_insert_ne by discriminate);
      rewrite lookup_insert_eq
  | |- holds (match ?l with [] => _ | _ :: _ => _ end) _ _ => destruct l
  end.

Ltac modes :=
  repeat match goal with
         | H : String.eqb _ _ = true |- _ => apply String.eqb_eq in H
         | H : String.eqb _ _ = false |- _ => apply String.eqb_neq in H
         end.

Ltac session_exec := cbn; repeat (session_step; cbn).

Section MainTheorems.
Context `{Web3Lib} (cfg : EventMonitor.Config) (w : World) (rounds : nat).

Let tr := fst (perform (EventMonitor.main cfg rounds) w []).
Let out := snd (perform (EventMonitor.main cfg rounds) w []).
Let select := ReadInput "Select mode (1=historical, 2=user, 3=realtime): ".

(** X22. Any line other than 1, 2 or 3 at the mode prompt (the line is
    compared as typed) is answered with one message: nothing else is asked
    and [main] returns. *)
Theorem main_invalid_mode (mode : string) :
  head (asked tr) = Some (select, Gave (VStr mode)) ->
  mode <> "1" -> mode <> "2" -> mode <> "3" ->
  out = Returned tt /\
  asked tr = [(select, Gave (VStr mode))] /\
  last (said tr) = Some "Invalid mode selected".
Proof.
  subst tr out select. by_holds. unfold EventMonitor.main.
  session_exec.
  all: try (apply holds_extends; intros ext o; cbn).
  all: intros Hmode ? ? ?; simplify_eq Hmode; intros; modes; subst.
  all: try contradiction.
  split_and!; reflexivity.
Qed.

(** X23. In mode 1 every query covers the thousand blocks up to the head
    read at the start (the lower end is negative on a chain shorter than
    that).  A run that returns has printed the banner, the line of the
    range, the four counts and, when the first query returned a log, the
    announcement of the first atom with its block and its transaction (the
    prompt is written by [input]); and the announcement is printed in no
    other run. *)
Theorem main_historical_window (head_block : Z) :
  asked tr !! 0%nat = Some (select, Gave (VStr "1")) ->
  asked tr !! 1%nat = Some (GetBlockNumber, Gave (VInt head_block)) ->
  (forall a r, In (a, r) (drop 2 (asked tr)) ->
     exists f, a = Node (GetLogs f) /\
               fromBlock f = head_block - 1000 /\
               toBlock f = head_block /\
               filter_address f =
                 to_checksum_address (EventMonitor.MULTIVAULT_ADDRESS cfg)) /\
  (out = Returned tt ->
   exists atoms triples deposits redemptions,
     map snd (drop 2 (asked tr))
     = [ Gave (VLogs atoms); Gave (VLogs triples);
         Gave (VLogs deposits); Gave (VLogs redemptions) ] /\
     said tr =
       [ str_times "=" 60; "Intuition Protocol Event Indexer"; str_times "=" 60; "";
         ("Querying blocks " ++ str_int (head_block - 1000) ++ " to "
          ++ str_int head_block ++ "..." ++ nl)%string;
         ("Found " ++ str_int (Z.of_nat (length atoms)) ++ " AtomCreated events")%string;
         ("Found " ++ str_int (Z.of_nat (length triples))
          ++ " TripleCreated events")%string;
         ("Found " ++ str_int (Z.of_nat (length deposits)) ++ " Deposited events")%string;
         ("Found " ++ str_int (Z.of_nat (length redemptions))
          ++ " Redeemed events" ++ nl)%string ]
       ++ match atoms with
          | [] => []
          | first_atom :: _ =>
              [ "First AtomCreated event:";
                ("  Block: " ++ str_int (log_blockNumber first_atom))%string;
                ("  Tx: " ++ log_transactionHash first_atom)%string ]
          end) /\
  (In "First AtomCreated event:" (said tr) ->
   out = Returned tt /\
   exists f first_atom rest,
     asked tr !! 2%nat = Some (Node (GetLogs f), Gave (VLogs (first_atom :: rest)))).
Proof.
  subst tr out select. by_holds.
  unfold EventMonitor.main, EventIndexer.query_historical_events.
  session_exec.
  all: try (apply holds_extends; intros ext o; cbn).
  all: intros Hmode Hblock; simplify_eq Hmode; intros; modes; subst.
  all: try discriminate.
  all: simplify_eq Hblock; intros; subst.
  all: split_and!;
    [ intros a r Hin;
      repeat (destruct Hin as [Hin | Hin];
              [ simplify_eq Hin; intros; subst; eexists; split_and!; reflexivity |]);
      destruct Hin
    | intros Hout; try discriminate Hout; do 4 eexists; split; reflexivity
    | intros Hin;
      repeat (destruct Hin as [Hin | Hin];
              [ first [ discriminate Hin
                      | vm_compute in Hin; discriminate Hin
                      | split; [reflexivity | do 3 eexists; reflexivity] ] |]);
      destruct Hin ].
Qed.

(** X24. In mode 2 a line of ASCII characters is used as the address as it
    was typed, whatever it is: each of the queries covers the thousand blocks
    up to the head and filters on the topic made of the line without its
    first two characters, padded to 64. *)
Theorem main_user_queries (user_address : string) (head_block : Z) :
  is_ascii user_address = true ->
  asked tr !! 0%nat = Some (select, Gave (VStr "2")) ->
  asked tr !! 1%nat
    = Some (ReadInput "Enter user address: ", Gave (VStr user_address)) ->
  asked tr !! 2%nat = Some (GetBlockNumber, Gave (VInt head_block)) ->
  forall a r, In (a, r) (drop 3 (asked tr)) ->
    exists f topic,
      a = Node (GetLogs f) /\
      fromBlock f = head_block - 1000 /\
      toBlock f = head_block /\
      topics f = [topic; ("0x" ++ zfill 64 (str_drop 2 user_address))%string].
Proof.
  subst tr out select. by_holds.
  unfold EventMonitor.main, EventIndexer.query_user_events.
  session_exec.
  all: try (apply holds_extends; intros ext o; cbn).
  all: intros Hascii Hmode Huser Hblock a r Hin; simplify_eq Hmode; intros; modes;
    subst.
  all: try discriminate.
  all: simplify_eq Huser; intros; subst.
  all: try discriminate.
  all: simplify_eq Hblock; intros; subst.
  all: repeat (destruct Hin as [Hin | Hin];
               [ simplify_eq Hin; intros; subst; do 2 eexists;
                 split_and!; reflexivity |]);
    destruct Hin.
Qed.

(** X25. In mode 3 the monitor is entered unless the WebSocket URL is the
    empty string: with an empty URL one message is printed and nothing more is
    asked, with any other (the placeholder of the source included) the filter
    is the next request. *)
Theorem main_realtime_needs_url :
  head (asked tr) = Some (select, Gave (VStr "3")) ->
  if String.eqb (EventMonitor.WS_RPC_URL cfg) "" then
    out = Returned tt /\
    asked tr = [(select, Gave (VStr "3"))] /\
    last (said tr) = Some "❌ WebSocket RPC URL not configured"
  else
    exists r,
      asked tr !! 1%nat
        = Some (NewFilter (to_checksum_address (EventMonitor.MULTIVAULT_ADDRESS cfg)), r).
Proof.
  subst tr out select. by_holds. unfold EventMonitor.main.
  destruct (String.eqb (EventMonitor.WS_RPC_URL cfg) "") eqn:Hurl.
  - session_exec.
    all: intros Hmode; simplify_eq Hmode; intros; modes; subst.
    all: try discriminate; try congruence.
    split_and!; reflexivity.
  - unfold EventMonitor.monitor_real_time_events. session_exec.
    all: try (apply holds_extends; intros ext o; cbn).
    all: intros Hmode; simplify_eq Hmode; intros; modes; subst.
    all: try discriminate; try congruence.
    all: eexists; reflexivity.
Qed.

End MainTheorems.

(** ** The indexer as a process *)

Lemma perform_extends {A : Type} (p : Session A) (w : World) (past : list Step) :
  exists ext, fst (perform p w past) = past ++ ext.
Proof.
  revert past. induction p as [a | [e|] | line k IH | a k IH |]; intros past;
    simpl; try (exists []; now rewrite app_nil_r).
  - destruct (IH (past ++ [Said line])) as (ext & ->).
    eexists. now rewrite <- app_assoc.
  - destruct (IH (w past a) (past ++ [Asked a (answer_of a (w past a))]))
      as (ext & ->).
    eexists. now rewrite <- app_assoc.
Qed.

Section IndexerProcess.
Context `{Web3Lib} (cfg : EventMonitor.Config) (w : World) (rounds : nat).

Let tr := fst (EventMonitor.script cfg rounds w).
Let exit := snd (EventMonitor.script cfg rounds w).
Let select := ReadInput "Select mode (1=historical, 2=user, 3=realtime): ".
Let create := NewFilter (to_checksum_address (EventMonitor.MULTIVAULT_ADDRESS cfg)).
Let banner : list Step :=
  [ Said (str_times "=" 60); Said "Intuition Protocol Event Indexer";
    Said (str_times "=" 60); Said "" ].

(** The guard adds no request to those of [main]. *)
Lemma script_asked :
  asked tr = asked (fst (perform (EventMonitor.main cfg rounds) w [])).
Proof.
  subst tr. unfold EventMonitor.script.
  destruct (perform (EventMonitor.main cfg rounds) w []) as [t [[] | e | |]];
    simpl; rewrite ?asked_app, ?app_nil_r; reflexivity.
Qed.

(** The first request is the mode prompt, after the banner. *)
Lemma script_mode (r : Answer) :
  head (asked tr) = Some (select, r) -> answer_of select (w banner select) = r.
Proof.
  rewrite script_asked. subst select banner. unfold EventMonitor.main.
  cbn -[EventMonitor.monitor_real_time_events].
  match goal with |- context [perform ?p w ?past] =>
    destruct (perform_extends p w past) as (ext & ->) end.
  cbn. congruence.
Qed.

(** X27. At the mode prompt nothing is caught but by the guard: the end of
    the input is reported and gives status 1, an interrupt ends the process
    past the guard; in both cases nothing more is asked. *)
Theorem prompt_not_answered (r : Answer) :
  head (asked tr) = Some (select, r) ->
  went_well r = false ->
  asked tr = [(select, r)] /\
  match r with
  | Gave (VRaised e) =>
      exit = EventMonitor.Status 1 /\
      last (said tr) = Some ("❌ Error: " ++ exn_str e)%string
  | _ => exit = EventMonitor.Killed /\ said tr = said banner
  end.
Proof.
  intros Hmode Hr. apply script_mode in Hmode.
  subst tr exit select banner. unfold EventMonitor.script, EventMonitor.main.
  cbn -[EventMonitor.monitor_real_time_events] in *.
  destruct (w _ _) as [[e|]|mode]; cbn in Hmode; subst r; try discriminate Hr;
    cbn; auto.
Qed.

(** X26. In mode 3 with a URL: an interrupt at a poll or at a sleep ends the
    process with status 0, an interrupt while the filter is created ends it
    past the guard, and a log without topics ends it with status 1 and the
    message of the [IndexError]. *)
Theorem realtime_exit :
  head (asked tr) = Some (select, Gave (VStr "3")) ->
  EventMonitor.WS_RPC_URL cfg <> "" ->
  (existsb bare (polled tr) = true ->
   exit = EventMonitor.Status 1 /\
   last (said tr) = Some "❌ Error: list index out of range") /\
  (exit = EventMonitor.Status 0 <->
   exists a, last (asked tr) = Some (a, Interrupted) /\
             (a = GetNewEntries \/ a = Sleep 2)) /\
  (exit = EventMonitor.Killed <-> last (asked tr) = Some (create, Interrupted)).
Proof.
  intros Hmode Hurl. apply script_mode in Hmode.
  apply String.eqb_neq in Hurl.
  subst tr exit select banner. unfold EventMonitor.script, EventMonitor.main.
  cbn -[EventMonitor.monitor_real_time_events] in *.
  destruct (w _ _) as [[e|]|mode]; cbn in Hmode; try discriminate Hmode.
  injection Hmode as ->. cbn -[EventMonitor.monitor_real_time_events].
  rewrite Hurl.
  match goal with |- context [perform _ w ?past] =>
    set (p := past);
    destruct (monitor_run cfg w rounds (EventMonitor.WS_RPC_URL cfg) p)
      as (ext & out & -> & _ & (rest & Hasks & _) & _ & Hout)
  end.
  fold create in Hasks, Hout.
  assert (Hlast : forall x, last (x :: asked ext) = last (asked ext)).
  { intros x. destruct (asked ext); [discriminate | reflexivity]. }
  assert (Hp : forall tail, asked (p ++ tail) = asked p ++ asked tail /\
                            polled (p ++ tail) = polled tail).
  { intros tail. now rewrite asked_app, polled_app. }
  destruct out as [[] | e | |]; cbn [fst snd];
    rewrite <- ?app_assoc, ?said_app;
    (destruct (Hp ext) as [-> ->] || destruct (Hp (ext ++ [Said ("❌ Error: " ++ exn_str e)%string])) as [-> ->]);
    rewrite ?asked_app, ?polled_app;
    change (asked p) with [(ReadInput "Select mode (1=historical, 2=user, 3=realtime): ",
                            Gave (VStr "3"))];
    cbn [app]; rewrite ?app_nil_r, ?Hlast.
  all: split_and!; [intros Hb | split; intros Hx ..]; try discriminate Hx.
  all: repeat match goal with
              | H : _ /\ _ |- _ => destruct H
              | H : _ \/ _ |- _ => destruct H
              | H : ex _ |- _ => destruct H
              end; subst;
       try congruence; eauto.
  all: repeat match goal with
              | Heq : asked ?l = _, Hl : last (asked ?l) = _ |- _ =>
                  rewrite Heq in Hl; simpl in Hl
              | Heq : asked ?l = _ |- context [last (asked ?l)] =>
                  rewrite Heq; simpl
              | Heq : polled ?l = _, Hl : context [polled ?l] |- _ =>
                  rewrite Heq in Hl; simpl in Hl
              end;
       subst create; try congruence.
  split; [reflexivity |].
  rewrite !app_assoc. apply last_snoc.
Qed.

End IndexerProcess.

(** ** Concrete sessions *)

(** Two logs in the first batch, an atom and something else, then Ctrl+C. *)
Lemma monitor_output_witness :
  let w := operator [] 0 funded
             [ inr [ mkLog "0xmv" ["0xkeccak:AtomCreated(address,bytes32,bytes,address)"]
                       7 "0xt1" 0;
                     mkLog "0xmv" ["0xkeccak:Other()"] 8 "0xt2" 0 ] ] in
  said (fst (perform (EventMonitor.monitor_real_time_events (H := toy_lib)
                        EventMonitor.defaults 5 "ws://node") w []))
  = [ "Connecting to WebSocket for real-time monitoring...";
      ("Press Ctrl+C to stop" ++ nl)%string;
      "🔵 AtomCreated"; "   Block: 7"; "   Tx: 0xt1"; "";
      "";
      (nl ++ "Stopping event monitor...")%string ].
Proof.
  intros w.
  etransitivity;
    [ exact (monitor_output (H := toy_lib) EventMonitor.defaults w 5 "ws://node") |].
  vm_compute. reflexivity.
Defined.

Lemma monitor_log_without_topics_witness :
  let w := operator [] 0 funded
             [ inr [mkLog "0xmv" ["0xkeccak:Other()"] 7 "0xt1" 0];
               inr [mkLog "0xmv" [] 8 "0xt2" 0; mkLog "0xmv" ["0x01"] 8 "0xt3" 1] ] in
  snd (perform (EventMonitor.monitor_real_time_events (H := toy_lib)
                  EventMonitor.defaults 5 "ws://node") w [])
  = Raised EventMonitor.IndexError.
Proof.
  intros w.
  refine (proj1 (monitor_log_without_topics (H := toy_lib) EventMonitor.defaults w 5
                   "ws://node" _)).
  reflexivity.
Defined.

Lemma monitor_error_ends_run_witness :
  let refused := {| exn_class := "ConnectionError"; exn_str := "connection lost" |} in
  let w := operator [] 0 funded [inr []; inl (Error refused)] in
  snd (perform (EventMonitor.monitor_real_time_events (H := toy_lib)
                  EventMonitor.defaults 5 "ws://node") w [])
  = Raised refused.
Proof.
  intros refused w.
  refine (proj1 (monitor_error_ends_run (H := toy_lib) EventMonitor.defaults w 5
                   "ws://node" GetNewEntries refused _)).
  vm_compute. do 3 right. left. reflexivity.
Defined.

Lemma monitor_runs_on_witness :
  let w := operator [] 0 funded [inr []; inr []; inr []] in
  snd (perform (EventMonitor.monitor_real_time_events (H := toy_lib)
                  EventMonitor.defaults 3 "ws://node") w [])
  = Running.
Proof.
  intros w.
  refine (monitor_runs_on (H := toy_lib) EventMonitor.defaults w 3 "ws://node" _ _).
  - reflexivity.
  - reflexivity.
Defined.

Lemma main_invalid_mode_witness :
  let w := operator ["1 "] 0 funded [] in
  last (said (fst (perform (EventMonitor.main (H := toy_lib) EventMonitor.defaults 5)
                     w [])))
  = Some "Invalid mode selected".
Proof.
  intros w.
  refine (proj2 (proj2 (main_invalid_mode (H := toy_lib) EventMonitor.defaults w 5
                          "1 " _ _ _ _))).
  - reflexivity.
  - discriminate.
  - discriminate.
  - discriminate.
Defined.

(** A chain of 500 blocks with one atom, created in block 42. *)
Lemma main_historical_window_witness :
  let one_atom :=
    mkChain true (fun _ => false) 0 0 0 0 0 (fun x => (x, x))
      (mkUserInfo 0 0 0 0 0 0) 0
      (fun f =>
         match topics f with
         | [topic] =>
             if String.eqb topic "0xkeccak:AtomCreated(address,bytes32,bytes,address)"
             then [mkLog "0xmv" [topic] 42 "0xabc" 0]
             else []
         | _ => []
         end) in
  let w := operator ["1"] 500 one_atom [] in
  let tr := fst (perform (EventMonitor.main (H := toy_lib) EventMonitor.defaults 5)
                   w []) in
  List.Forall (fun request =>
                 exists f, fst request = Node (GetLogs f) /\ fromBlock f = -500)
    (drop 2 (asked tr)) /\
  said tr =
    [ str_times "=" 60; "Intuition Protocol Event Indexer"; str_times "=" 60; "";
      ("Querying blocks -500 to 500..." ++ nl)%string;
      "Found 1 AtomCreated events";
      "Found 0 TripleCreated events";
      "Found 0 Deposited events";
      ("Found 0 Redeemed events" ++ nl)%string;
      "First AtomCreated event:";
      "  Block: 42";
      "  Tx: 0xabc" ].
Proof.
  intros one_atom w tr.
  destruct (main_historical_window (H := toy_lib) EventMonitor.defaults w 5
              500 eq_refl eq_refl) as (Hwindow & Hreturned & _).
  split.
  - apply List.Forall_forall. intros [a r] Hin.
    destruct (Hwindow a r Hin) as (f & Ha & Hfrom & _).
    exists f. split; [exact Ha | exact Hfrom].
  - destruct (Hreturned eq_refl)
      as (atoms & triples & deposits & redemptions & Hanswers & Hsaid).
    vm_compute in Hanswers. simplify_eq Hanswers. intros; subst.
    etransitivity; [exact Hsaid |]. vm_compute. reflexivity.
Defined.

(** A line that is no address. *)
Lemma main_user_queries_witness :
  let w := operator ["2"; "vitalik"] 5000 funded [] in
  let requests :=
    drop 3 (asked (fst (perform (EventMonitor.main (H := toy_lib)
                                   EventMonitor.defaults 5) w []))) in
  length requests = 3%nat /\
  List.Forall (fun request =>
                 exists f, fst request = Node (GetLogs f) /\
                           last (topics f) = Some ("0x" ++ zeros 59 ++ "talik")%string)
    requests.
Proof.
  intros w requests. split; [reflexivity |].
  apply List.Forall_forall. intros [a r] Hin.
  destruct (main_user_queries (H := toy_lib) EventMonitor.defaults w 5
              "vitalik" 5000 eq_refl eq_refl eq_refl eq_refl a r Hin)
    as (f & topic & Ha & _ & _ & Htopics).
  exists f. split; [exact Ha |]. rewrite Htopics. reflexivity.
Defined.

Lemma main_realtime_needs_url_witness :
  let w := operator ["3"] 0 funded [] in
  exists r,
    asked (fst (perform (EventMonitor.main (H := toy_lib) EventMonitor.defaults 5)
                  w [])) !! 1%nat
    = Some (NewFilter "0x6E35cF57A41fA15eA0EaE9C33e751b01A784Fe7e", r).
Proof.
  intros w.
  exact (main_realtime_needs_url (H := toy_lib) EventMonitor.defaults w 5 eq_refl).
Defined.

Lemma realtime_exit_witness :
  let w := operator ["3"] 0 funded [inr [mkLog "0xmv" [] 8 "0xt2" 0]] in
  snd (EventMonitor.script (H := toy_lib) EventMonitor.defaults 5 w)
  = EventMonitor.Status 1 /\
  last (said (fst (EventMonitor.script (H := toy_lib) EventMonitor.defaults 5 w)))
  = Some "❌ Error: list index out of range".
Proof.
  intros w.
  refine (proj1 (realtime_exit (H := toy_lib) EventMonitor.defaults w 5 _ _) _).
  - reflexivity.
  - discriminate.
  - reflexivity.
Defined.

Lemma prompt_not_answered_witness :
  let w := operator [] 0 funded [] in
  snd (EventMonitor.script (H := toy_lib) EventMonitor.defaults 5 w)
  = EventMonitor.Status 1 /\
  last (said (fst (EventMonitor.script (H := toy_lib) EventMonitor.defaults 5 w)))
  = Some "❌ Error: EOF when reading a line".
Proof.
  intros w.
  refine (proj2 (prompt_not_answered (H := toy_lib) EventMonitor.defaults w 5
                   (Gave (VRaised EOFError)) _ _)).
  - reflexivity.
  - reflexivity.
Defined.
